(** * Trip planner: duty-cycle timeline simulation

    A shallow embedding of [trips/simulator.py] (class [TripSimulator]) and of
    the request handler [trips/views.py] ([simulate_trip]), followed by the
    properties of the fuel-stop planner, the timeline builder, the trip
    orchestrator and the request boundary.

    Modelling conventions.
    - A Python [float] is idealised as an exact rational ([Q]): no rounding
      error, no [nan], no [inf].  Python's [round], [math.ceil], [min] and
      [%] are written out on [Q].  Where a decoded JSON number can be a
      non-finite float (the request body), the special values are kept
      ([pyfloat]).
    - A Python [int] is a [Z].
    - A naive [datetime] is a count of microseconds ([Z]) from an unbounded
      calendar; [isoformat()] is injective, so a timestamp string is
      represented by the datetime it prints, and a date by its day number.
    - An exception message built with an f-string is kept as structured data
      ([Msg]) instead of its text.
    - The two HTTP providers are oracles of the environment; every request
      sent is appended to a trace that the monad threads through the code.
    - Calls to [logger] have no effect on any result and are left out.
    - The builtin [int()] on a [str] is a function of the environment: its
      Unicode tables and its digit limit belong to the interpreter.
    - Since the code rounds doubles and the model rounds rationals, a value
      the code rounds is specified as a nearest decimal ([rounded_to]), which
      leaves the direction of a tie open. *)

From Stdlib Require Import ZArith QArith Qround Qminmax Lia Lqa String Ascii List Bool.
From stdpp Require Import gmap strings pretty.
Import ListNotations.

Set Warnings "-register-all".

Open Scope string_scope.
Open Scope list_scope.
Open Scope Z_scope.

(** ** Python numerics on rationals *)

Module Py.

(** [x < y] as Python evaluates it on two numbers. *)
Definition ltb (x y : Q) : bool :=
  match (x ?= y)%Q with Lt => true | _ => false end.

(** [x <= y]. *)
Definition leb (x y : Q) : bool :=
  match (x ?= y)%Q with Gt => false | _ => true end.

(** The builtin [min(a, b)]: the first argument unless the second is
    strictly smaller. *)
Definition min (a b : Q) : Q := if ltb b a then b else a.

(** Round to the nearest integer, ties to the even one. *)
Definition round_half_even (x : Q) : Z :=
  let f := Qfloor x in
  match (x - inject_Z f ?= 1 # 2)%Q with
  | Lt => f
  | Gt => f + 1
  | Eq => if Z.even f then f else f + 1
  end.

(** The builtin [round(x, ndigits)] on a float, [ndigits >= 0]. *)
Definition round (x : Q) (ndigits : nat) : Q :=
  let scale := Pos.pow 10 (Pos.of_nat ndigits) in
  match ndigits with
  | O => inject_Z (round_half_even x)
  | S _ => Qmake (round_half_even (x * inject_Z (Zpos scale))) scale
  end.

(** The builtin [round(n, ndigits)] on an int: unchanged when
    [ndigits >= 0], otherwise rounded half-even to a multiple of
    [10 ** -ndigits]. *)
Definition round_int (n : Z) (ndigits : Z) : Z :=
  if 0 <=? ndigits then n
  else
    let p := 10 ^ (- ndigits) in
    round_half_even (Qmake n 1 / inject_Z p) * p.

(** [math.ceil]. *)
Definition ceil (x : Q) : Z := Qceiling x.

(** [x % m] on floats, for a positive modulus. *)
Definition fmod (x m : Q) : Q := (x - m * inject_Z (Qfloor (x / m)))%Q.

(** [int(x)] on a finite float: truncation toward zero. *)
Definition trunc (x : Q) : Z := Z.quot (Qnum x) (Zpos (Qden x)).

End Py.

(** ** Decoded JSON values *)

(** A float as [json.loads] can produce it.  A literal too large for a
    double decodes to an infinity. *)
Inductive pyfloat :=
| Finite (q : Q)
| Infinity (negative : bool)
| NaN.

Inductive json :=
| JNull
| JBool (b : bool)
| JInt (n : Z)
| JFloat (f : pyfloat)
| JString (s : string)
| JArray (items : list json)
| JObject (members : list (string * json)).

(** Truth value of a decoded JSON value, as [or] and [not] test it. *)
Definition truthy (v : json) : bool :=
  match v with
  | JNull => false
  | JBool b => b
  | JInt n => negb (n =? 0)
  | JFloat (Finite q) => negb (Qeq_bool q 0)
  | JFloat _ => true
  | JString s => negb (String.eqb s "")
  | JArray items => match items with [] => false | _ => true end
  | JObject members => match members with [] => false | _ => true end
  end.

(** ** Exceptions *)

(** The exceptions the code raises or lets through.  The text of a
    [ValueError] is a [Msg]; [SimulationFailed e] stands for
    [f"Simulation failed: {str(e)}"]. *)
Inductive Exn :=
| ValueError (msg : Msg)
| KeyError (key : string)
| IndexError
| TypeError
| OverflowError
| AttributeError
| ParseError
with Msg :=
| TokenRequired
| InvalidLiteral
| CannotConvertNaN
| NoResultsFound (address : json)
| GeocodingFailed (detail : string)
| RoutingApiError (message : option string)
| NoRouteFound
| MissingDistanceOrTime
| RouteCalculationFailed (detail : string)
| UnexpectedResponseFormat
| InsufficientCycleHours
| MissingRequiredField (field : string)
| SimulationFailed (cause : Exn).

(** ** The environment and the effect monad *)

(** A coordinate pair [(lat, lon)]. *)
Definition Coord : Type := Q * Q.

(** A request sent with [requests.get]: the geocoding search with its
    [text] and [apiKey], or the routing call with its waypoints (the
    ["lat,lon|lat,lon"] string, kept as the list it prints) and [apiKey];
    the routing mode is always ["drive"]. *)
Inductive Request :=
| GeocodeSearch (text : json) (apiKey : json)
| Routing (waypoints : list Coord) (apiKey : json).

(** What the geocoding provider answers: a transport or HTTP-status failure
    ([requests.exceptions.RequestException]), or a body whose ["features"]
    are objects, each with a ["geometry"] object that carries its
    ["coordinates"] array of numbers ([None] when the geometry has no
    ["coordinates"] key). *)
Inductive GeocodeReply :=
| GeocodeRequestException (detail : string)
| GeocodeJson (features : list (option (list Q))).

Module Properties.
Record t := { distance : option Q; time : option Q }.
End Properties.

Module Feature.
Record t := { geometry : option json; properties : option Properties.t }.
End Feature.

(** What the routing provider answers.  [RoutingError] is a body with an
    ["error"] or ["statusCode"] key and its optional ["message"].  The
    features are objects; ["properties"], when present, is an object, and
    ["distance"] and ["time"], when present, are numbers. *)
Inductive RoutingReply :=
| RoutingRequestException (detail : string)
| RoutingError (message : option string)
| RoutingJson (features : list Feature.t).

(** The world around one request: the configured token, the wall clock
    read by [datetime.now()], the interpreter's [int()] on a [str] ([None]
    when it raises [ValueError]), and the two providers, which may answer
    according to everything sent before. *)
Record Env := {
  GEOAPIFY_TOKEN : option string;
  datetime_now : Z;
  int_str : string -> option Z;
  geocode_api : list Request -> json -> json -> GeocodeReply;
  routing_api : list Request -> list Coord -> json -> RoutingReply
}.

(** A computation reads the environment, threads the trace of requests sent
    so far, and ends in a value or in a raised exception. *)
Definition M (A : Type) : Type :=
  Env -> list Request -> (Exn + A) * list Request.

#[global] Instance M_ret : MRet M := fun A a _ tr => (inr a, tr).

#[global] Instance M_bind : MBind M := fun A B k c env tr =>
  match c env tr with
  | (inl e, tr') => (inl e, tr')
  | (inr a, tr') => k a env tr'
  end.

Definition raise {A} (e : Exn) : M A := fun _ tr => (inl e, tr).

(** [try: body except Exception as e: handler e]. *)
Definition try_except {A} (body : M A) (handler : Exn -> M A) : M A :=
  fun env tr =>
    match body env tr with
    | (inl e, tr') => handler e env tr'
    | ok => ok
    end.

Definition ask : M Env := fun env tr => (inr env, tr).

(** Send a geocoding request: log it, then let the provider answer. *)
Definition get_geocode (text apiKey : json) : M GeocodeReply :=
  fun env tr =>
    (inr (geocode_api env tr text apiKey), tr ++ [GeocodeSearch text apiKey]).

(** Send a routing request. *)
Definition get_routing (waypoints : list Coord) (apiKey : json) : M RoutingReply :=
  fun env tr =>
    (inr (routing_api env tr waypoints apiKey), tr ++ [Routing waypoints apiKey]).

(** [l[i]] on a list. *)
Definition getitem {A} (l : list A) (i : nat) : M A :=
  match nth_error l i with
  | Some x => mret x
  | None => raise IndexError
  end.

(** [d[key]] on a dict whose entry may be absent. *)
Definition getkey {A} (key : string) (entry : option A) : M A :=
  match entry with
  | Some x => mret x
  | None => raise (KeyError key)
  end.

(** ** Datetimes *)

Definition us_per_hour : Z := 3600000000.
Definition us_per_day : Z := 86400000000.

(** [timedelta(hours=h)]: the duration in microseconds, rounded half-even. *)
Definition timedelta (hours : Q) : Z :=
  Py.round_half_even (hours * inject_Z us_per_hour).

(** [now.replace(hour=0, minute=0, second=0, microsecond=0)]. *)
Definition replace_midnight (now : Z) : Z := now - now mod us_per_day.

(** [d.date()], as a day number. *)
Definition date (d : Z) : Z := d / us_per_day.

(** [(a - b).total_seconds()]. *)
Definition total_seconds (delta : Z) : Q := (inject_Z delta / 1000000)%Q.

(** ** The dictionaries the simulator builds *)

(** An entry of the [events] list. *)
Module Event.
Record t := { type : string; hours : Q; note : string; start : Z }.
End Event.

(** An ELD log entry, as [create_eld_log_entry] returns it. *)
Module LogEntry.
Record t := {
  status : string;
  hours : Q;
  description : string;
  start_time : Z;
  elapsed_hours : Q
}.
End LogEntry.

(** A daily log ([current_log]). *)
Module DailyLog.
Record t := {
  date : Z;
  entries : list LogEntry.t;
  total_driving : Q;
  total_on_duty : Q
}.
End DailyLog.

(** An entry of [fuel_locations]. *)
Module FuelLocation.
Record t := { lat : Q; lng : Q; name : string; distance_from_start : Z }.
End FuelLocation.

(** What [get_route] returns. *)
Module Route.
Record t := {
  geojson : json;
  distance : Q;
  duration : Q;
  fuel_locations : list Coord
}.
End Route.

(** What [simulate] returns. *)
Module Result.
Record t := {
  events : list Event.t;
  daily_logs : list DailyLog.t;
  total_distance : Q;
  total_driving_hours : Q;
  route_geojson : json;
  fuel_stops : Z;
  fuel_locations : list FuelLocation.t;
  remaining_cycle_hours : Q;
  status : string;
  message : string
}.
End Result.

(** ** [class TripSimulator] *)

Module TripSimulator.

(** The attributes [__init__] sets on [self]. *)
Record t := {
  geoapify_token : json;
  remaining_cycle : Z;
  driving_limit : Z;
  on_duty_limit : Z;
  rest_hours : Z;
  break_hours : Q;
  avg_speed : Z;
  fuel_time : Q;
  pickup_time : Z;
  dropoff_time : Z
}.

(** [config('GEOAPIFY_TOKEN', default=None)]. *)
Definition config_token (env : Env) : json :=
  match GEOAPIFY_TOKEN env with
  | Some s => JString s
  | None => JNull
  end.

(** [__init__(self, geoapify_token=None, current_cycle_used=0)]. *)
Definition init (geoapify_token : json) (current_cycle_used : Z) : M t :=
  env ← ask;
  let token := if truthy geoapify_token then geoapify_token else config_token env in
  if negb (truthy token) then raise (ValueError TokenRequired)
  else mret {|
    geoapify_token := token;
    remaining_cycle := 70 - current_cycle_used;
    driving_limit := 11;
    on_duty_limit := 14;
    rest_hours := 10;
    break_hours := 1 # 2;
    avg_speed := 55;
    fuel_time := 1 # 2;
    pickup_time := 1;
    dropoff_time := 1
  |}.

(** [geocode(self, address)]: the [(lat, lon)] of the first feature. *)
Definition geocode (self : t) (address : json) : M Coord :=
  reply ← get_geocode address (geoapify_token self);
  match reply with
  | GeocodeRequestException detail => raise (ValueError (GeocodingFailed detail))
  | GeocodeJson features =>
      match features with
      | [] => raise (ValueError (NoResultsFound address))
      | first :: _ =>
          coords ← getkey "coordinates" first;
          c1 ← getitem coords 1;
          c0 ← getitem coords 0;
          mret (c1, c0)
      end
  end.

(** [waypoints_list.insert(-1, x)]: insert before the last element (at the
    front of a list with fewer than two elements). *)
Fixpoint insert_before_last {A} (x : A) (l : list A) : list A :=
  match l with
  | [] => [x]
  | [y] => [x; y]
  | y :: l' => y :: insert_before_last x l'
  end.

Definition meters_to_miles : Q := 621371 # 1000000000.

(** [get_route(self, start_coords, end_coords, waypoints=None)]. *)
Definition get_route (self : t) (start_coords end_coords : Coord)
    (waypoints : option (list Coord)) : M Route.t :=
  let waypoints_list := [start_coords; end_coords] in
  let waypoints_list :=
    match waypoints with
    | Some ((_ :: _) as wps) =>
        fold_left (fun l wp => insert_before_last wp l) wps waypoints_list
    | _ => waypoints_list
    end in
  reply ← get_routing waypoints_list (geoapify_token self);
  match reply with
  | RoutingRequestException detail =>
      raise (ValueError (RouteCalculationFailed detail))
  | RoutingError message => raise (ValueError (RoutingApiError message))
  | RoutingJson [] => raise (ValueError NoRouteFound)
  | RoutingJson (feature :: _) =>
      try_except
        (props ← getkey "properties" (Feature.properties feature);
         match Properties.distance props, Properties.time props with
         | Some distance, Some time =>
             let dist_miles := (distance * meters_to_miles)%Q in
             let time_hours := (time / 3600)%Q in
             geometry ← getkey "geometry" (Feature.geometry feature);
             mret {|
               Route.geojson := geometry;
               Route.distance := dist_miles;
               Route.duration := time_hours;
               Route.fuel_locations :=
                 match waypoints with Some wps => wps | None => [] end
             |}
         | _, _ => raise (ValueError MissingDistanceOrTime)
         end)
        (fun e =>
           match e with
           | KeyError _ => raise (ValueError UnexpectedResponseFormat)
           | _ => raise e
           end)
  end.

(** [calculate_fuel_stops(self, total_distance)]: one stop every 1000
    miles. *)
Definition calculate_fuel_stops (self : t) (total_distance : Q) : Z :=
  if Py.leb total_distance 1000 then 0
  else Py.ceil (total_distance / 1000) - 1.

(** [create_eld_log_entry(self, status, hours, description, start_time,
    day_start)]. *)
Definition create_eld_log_entry (self : t) (status : string) (hours : Q)
    (description : string) (start_time day_start : Z) : LogEntry.t :=
  let elapsed_hours := (total_seconds (start_time - day_start) / 3600)%Q in
  {| LogEntry.status := status;
     LogEntry.hours := hours;
     LogEntry.description := description;
     LogEntry.start_time := start_time;
     LogEntry.elapsed_hours := Py.round (Py.fmod elapsed_hours 24) 2 |}.

(** [simulate_trip_timeline(self, total_driving_hours, total_distance,
    num_fuel_stops)].  The lists and the clock the code updates in place
    are rebound at every step. *)
Definition simulate_trip_timeline (self : t) (total_driving_hours total_distance : Q)
    (num_fuel_stops : Z) : M (list Event.t * list DailyLog.t) :=
  env ← ask;
  let events := [] in
  let daily_logs := [] in
  let now := datetime_now env in
  let current_day_start := replace_midnight now in
  let log_date := date current_day_start in
  let entries := [] in
  (* Simplified simulation for short distances *)
  let driving_remaining := total_driving_hours in
  (* Driving to pickup *)
  let drive_segment := Py.min driving_remaining 2 in
  let events := events ++ [{|
    Event.type := "drive";
    Event.hours := drive_segment;
    Event.note := "Driving to pickup location";
    Event.start := now |}] in
  let entries := entries ++ [create_eld_log_entry self
    "D" drive_segment "Driving to pickup" now current_day_start] in
  let driving_remaining := (driving_remaining - drive_segment)%Q in
  let now := now + timedelta drive_segment in
  (* Pickup *)
  let events := events ++ [{|
    Event.type := "pickup";
    Event.hours := inject_Z (pickup_time self);
    Event.note := "Loading at pickup location";
    Event.start := now |}] in
  let entries := entries ++ [create_eld_log_entry self
    "ON" (inject_Z (pickup_time self)) "Loading" now current_day_start] in
  let now := now + timedelta (inject_Z (pickup_time self)) in
  (* Main driving *)
  let '(events, entries, now) :=
    if Py.ltb 0 driving_remaining then
      (events ++ [{|
         Event.type := "drive";
         Event.hours := driving_remaining;
         Event.note := "Main route to destination";
         Event.start := now |}],
       entries ++ [create_eld_log_entry self
         "D" driving_remaining "Route driving" now current_day_start],
       now + timedelta driving_remaining)
    else (events, entries, now) in
  (* Dropoff *)
  let events := events ++ [{|
    Event.type := "dropoff";
    Event.hours := inject_Z (dropoff_time self);
    Event.note := "Unloading at destination";
    Event.start := now |}] in
  let entries := entries ++ [create_eld_log_entry self
    "ON" (inject_Z (dropoff_time self)) "Unloading" now current_day_start] in
  (* Finalize log *)
  let current_log := {|
    DailyLog.date := log_date;
    DailyLog.entries := entries;
    DailyLog.total_driving := total_driving_hours;
    DailyLog.total_on_duty :=
      (total_driving_hours + inject_Z (pickup_time self)
       + inject_Z (dropoff_time self))%Q |} in
  let daily_logs := daily_logs ++ [current_log] in
  mret (events, daily_logs).

(** One pass of the loop over [range(num_fuel_stops)] in [simulate]. *)
Definition fuel_location (pickup_coords dropoff_coords : Coord)
    (num_fuel_stops : Z) (i : Z) : FuelLocation.t :=
  let fraction := (inject_Z (i + 1) / inject_Z (num_fuel_stops + 1))%Q in
  let lat := (fst pickup_coords
              + fraction * (fst dropoff_coords - fst pickup_coords))%Q in
  let lng := (snd pickup_coords
              + fraction * (snd dropoff_coords - snd pickup_coords))%Q in
  {| FuelLocation.lat := Py.round lat 6;
     FuelLocation.lng := Py.round lng 6;
     FuelLocation.name := "Fuel Stop " +:+ pretty (i + 1);
     FuelLocation.distance_from_start := Py.round_int ((i + 1) * 1000) 1 |}.

(** [range(n)]. *)
Definition range (n : Z) : list Z := map Z.of_nat (seq 0 (Z.to_nat n)).

(** The fuel-location block of [simulate]. *)
Definition generate_fuel_locations (pickup_coords dropoff_coords : Coord)
    (num_fuel_stops : Z) : list FuelLocation.t :=
  if 0 <? num_fuel_stops then
    map (fuel_location pickup_coords dropoff_coords num_fuel_stops)
        (range num_fuel_stops)
  else [].

(** [simulate(self, current_addr, pickup_addr, dropoff_addr)]. *)
Definition simulate (self : t) (current_addr pickup_addr dropoff_addr : json)
    : M Result.t :=
  if remaining_cycle self <? 10 then
    raise (ValueError InsufficientCycleHours)
  else
    try_except
      ((* Geocode all addresses *)
       current_coords ← geocode self current_addr;
       pickup_coords ← geocode self pickup_addr;
       dropoff_coords ← geocode self dropoff_addr;
       (* Calculate routes *)
       route_to_pickup ← get_route self current_coords pickup_coords None;
       main_route ← get_route self pickup_coords dropoff_coords None;
       let total_distance :=
         (Route.distance route_to_pickup + Route.distance main_route)%Q in
       let total_driving_hours :=
         (Route.duration route_to_pickup + Route.duration main_route)%Q in
       (* Calculate fuel stops *)
       let num_fuel_stops := calculate_fuel_stops self total_distance in
       (* Generate simplified fuel locations *)
       let fuel_locations :=
         generate_fuel_locations pickup_coords dropoff_coords num_fuel_stops in
       (* Simulate timeline *)
       '(events, daily_logs) ←
         simulate_trip_timeline self total_driving_hours total_distance
                                num_fuel_stops;
       mret {|
         Result.events := events;
         Result.daily_logs := daily_logs;
         Result.total_distance := Py.round total_distance 1;
         Result.total_driving_hours := Py.round total_driving_hours 1;
         Result.route_geojson := Route.geojson main_route;
         Result.fuel_stops := num_fuel_stops;
         Result.fuel_locations := fuel_locations;
         Result.remaining_cycle_hours :=
           Py.round (inject_Z (remaining_cycle self) - total_driving_hours
                     - inject_Z (pickup_time self)
                     - inject_Z (dropoff_time self)
                     - inject_Z num_fuel_stops * fuel_time self) 1;
         Result.status := "success";
         Result.message := "Trip simulation completed successfully" |})
      (fun e => raise (ValueError (SimulationFailed e))).

End TripSimulator.

(** ** The request handler ([views.py]) *)

Module Views.

(** The builtin [int(v)] on a decoded JSON value; [read] is the
    interpreter's reading of a string. *)
Definition int (read : string -> option Z) (v : json) : Exn + Z :=
  match v with
  | JInt n => inr n
  | JBool b => inr (if b then 1 else 0)
  | JFloat (Finite q) => inr (Py.trunc q)
  | JFloat (Infinity _) => inl OverflowError
  | JFloat NaN => inl (ValueError CannotConvertNaN)
  | JString s =>
      match read s with
      | Some n => inr n
      | None => inl (ValueError InvalidLiteral)
      end
  | JNull | JArray _ | JObject _ => inl TypeError
  end.

(** The response sent back: 200 with the result, 400 with
    [{'error': ..., 'type': 'validation_error'}], or 500 with
    [{'error': 'Internal server error', 'details': ...}]. *)
Inductive Response :=
| Ok (result : Result.t)
| BadRequest (error : Msg)
| InternalServerError (details : Exn).

Definition required_fields : list string :=
  ["current_location"; "pickup_location"; "dropoff_location"].

(** The first required field missing from the request, if any. *)
Definition first_missing (data : gmap string json) : option string :=
  find (fun field => bool_decide (data !! field = None)) required_fields.

(** The block under "Safely parse current_cycle_used". *)
Definition parse_current_cycle_used (data : gmap string json) : M Z :=
  env ← ask;
  match int (int_str env) (default (JInt 0) (data !! "current_cycle_used")) with
  | inr n => mret n
  | inl (ValueError _) | inl TypeError => mret 0
  | inl e => raise e
  end.

(** The body of the outer [try] of [simulate_trip]. *)
Definition simulate_trip_body (data : gmap string json) : M Response :=
  match first_missing data with
  | Some field => mret (BadRequest (MissingRequiredField field))
  | None =>
      current_cycle_used ← parse_current_cycle_used data;
      sim ← TripSimulator.init (default JNull (data !! "geoapify_token"))
                               current_cycle_used;
      current_location ← getkey "current_location" (data !! "current_location");
      pickup_location ← getkey "pickup_location" (data !! "pickup_location");
      dropoff_location ← getkey "dropoff_location" (data !! "dropoff_location");
      result ← TripSimulator.simulate sim current_location pickup_location
                                      dropoff_location;
      mret (Ok result)
  end.

(** [simulate_trip(request)] when [request.data] is a dict. *)
Definition simulate_trip (data : gmap string json) : M Response :=
  try_except (simulate_trip_body data)
    (fun e =>
       match e with
       | ValueError msg => mret (BadRequest msg)
       | _ => mret (InternalServerError e)
       end).

(** What reading [request.data] gives: a failure to parse the body, a
    multipart form that carries an uploaded file, or decoded data (a JSON
    value; a form without files is the dict of its fields). *)
Inductive Body :=
| Unreadable
| WithUpload
| Decoded (data : json).

(** [field in data] when [data] is a list: equality with an element. *)
Definition in_list (field : string) (items : list json) : bool :=
  existsb (fun item =>
             match item with
             | JString s => String.eqb s field
             | _ => false
             end) items.

(** [field in data] when [data] is a str: the substring test. *)
Definition in_str (field : string) (s : string) : bool :=
  match String.index 0 field s with
  | Some _ => true
  | None => false
  end.

(** The dict a JSON object decodes to: of two members with the same name
    the later one is kept. *)
Definition dict_of (members : list (string * json)) : gmap string json :=
  list_to_map (rev members).

(** [simulate_trip(request)] from the request as it arrives.  Reading
    [request.data] happens inside the outer [try]; [json.dumps(data)], in
    the first log line, raises [TypeError] on an uploaded file; on a body
    that is not a dict the membership test raises [TypeError] (null, a
    boolean, a number) or is the list or substring test, and then
    [data.get] raises [AttributeError]. *)
Definition simulate_trip_request (body : Body) : M Response :=
  match body with
  | Unreadable => mret (InternalServerError ParseError)
  | WithUpload => mret (InternalServerError TypeError)
  | Decoded (JObject members) => simulate_trip (dict_of members)
  | Decoded (JArray items) =>
      match find (fun field => negb (in_list field items)) required_fields with
      | Some field => mret (BadRequest (MissingRequiredField field))
      | None => mret (InternalServerError AttributeError)
      end
  | Decoded (JString s) =>
      match find (fun field => negb (in_str field s)) required_fields with
      | Some field => mret (BadRequest (MissingRequiredField field))
      | None => mret (InternalServerError AttributeError)
      end
  | Decoded _ => mret (InternalServerError TypeError)
  end.

End Views.

(** ** Sample scenarios *)

(** A reader of ASCII integer literals, standing for the interpreter's
    [int()] on the sample requests: surrounding whitespace, an optional
    sign, then decimal digits with single underscores between them, at
    most 4300 digits. *)
Module Ascii_int.

Definition is_space (c : ascii) : bool :=
  let n := nat_of_ascii c in
  ((9 <=? n) && (n <=? 13) || (n =? 32))%nat.

Fixpoint lstrip (s : string) : string :=
  match s with
  | String c s' => if is_space c then lstrip s' else s
  | EmptyString => s
  end.

Fixpoint rstrip (s : string) : string :=
  match s with
  | String c s' =>
      match rstrip s' with
      | EmptyString => if is_space c then EmptyString else String c EmptyString
      | r => String c r
      end
  | EmptyString => s
  end.

Definition digit_value (c : ascii) : option Z :=
  let n := nat_of_ascii c in
  if ((48 <=? n) && (n <=? 57))%nat then Some (Z.of_nat n - 48) else None.

(** Decimal digits, with single underscores allowed between two digits;
    [count] is the number of digits read so far. *)
Fixpoint digits (s : string) (acc : Z) (count : nat) (after_digit : bool)
    : option Z :=
  match s with
  | EmptyString =>
      if after_digit && (count <=? 4300)%nat then Some acc else None
  | String c s' =>
      match digit_value c with
      | Some d => digits s' (10 * acc + d) (S count) true
      | None =>
          if Ascii.eqb c "_" && after_digit
          then digits s' acc count false else None
      end
  end.

Definition read (s : string) : option Z :=
  match rstrip (lstrip s) with
  | String "-" s' => Z.opp <$> digits s' 0 0 false
  | String "+" s' => digits s' 0 0 false
  | s' => digits s' 0 0 false
  end.

End Ascii_int.

(** A routed leg of 2000 km driven in 15 hours. *)
Definition sample_feature : Feature.t := {|
  Feature.geometry := Some (JObject [("type", JString "LineString")]);
  Feature.properties := Some {|
    Properties.distance := Some 2000000%Q;
    Properties.time := Some 54000%Q |}
|}.

(** An environment with a configured token, a clock at 08:00 on day 5, a
    geocoder that knows three places and a router that answers
    [sample_feature] for every leg. *)
Definition sample_env : Env := {|
  GEOAPIFY_TOKEN := Some "secret";
  datetime_now := 5 * us_per_day + 8 * us_per_hour;
  int_str := Ascii_int.read;
  geocode_api := fun _ address _ =>
    match address with
    | JString "Denver" => GeocodeJson [Some [(-105)%Q; 40%Q]]
    | JString "Omaha" => GeocodeJson [Some [(-96)%Q; 41%Q]]
    | JString "Chicago" => GeocodeJson [Some [(-88)%Q; 42%Q]]
    | _ => GeocodeJson []
    end;
  routing_api := fun _ _ _ => RoutingJson [sample_feature]
|}.

(** The same clock reading with no configured token and both providers
    unreachable. *)
Definition offline_env : Env := {|
  GEOAPIFY_TOKEN := None;
  datetime_now := 5 * us_per_day + 8 * us_per_hour;
  int_str := Ascii_int.read;
  geocode_api := fun _ _ _ => GeocodeRequestException "timeout";
  routing_api := fun _ _ _ => RoutingRequestException "timeout"
|}.


(** The simulator [TripSimulator(None, used)] builds in [sample_env]. *)
Definition sample_sim (used : Z) : TripSimulator.t := {|
  TripSimulator.geoapify_token := JString "secret";
  TripSimulator.remaining_cycle := 70 - used;
  TripSimulator.driving_limit := 11;
  TripSimulator.on_duty_limit := 14;
  TripSimulator.rest_hours := 10;
  TripSimulator.break_hours := 1 # 2;
  TripSimulator.avg_speed := 55;
  TripSimulator.fuel_time := 1 # 2;
  TripSimulator.pickup_time := 1;
  TripSimulator.dropoff_time := 1
|}.

(** A request body for Denver, Omaha, Chicago with a given
    [current_cycle_used]. *)
Definition sample_request (used : json) : gmap string json :=
  <["current_location" := JString "Denver"]>
    (<["pickup_location" := JString "Omaha"]>
       (<["dropoff_location" := JString "Chicago"]>
          (<["current_cycle_used" := used]> ∅))).

(** ** What is observed of the timeline *)

(** Kind, duration and note of an event. *)
Definition event_view (e : Event.t) : string * Q * string :=
  (Event.type e, Event.hours e, Event.note e).

(** Status, duration and label of a log entry. *)
Definition entry_view (e : LogEntry.t) : string * Q * string :=
  (LogEntry.status e, LogEntry.hours e, LogEntry.description e).

(** Total duration of the events of type ["drive"]. *)
Definition drive_hours (events : list Event.t) : Q :=
  fold_right Qplus 0%Q
    (map Event.hours
         (List.filter (fun e => String.eqb (Event.type e) "drive") events)).

(** [r] is [x] rounded to [ndigits >= 1] decimals: a whole number of
    units of [10 ** -ndigits], at most half a unit away from [x].  At a
    tie both neighbours qualify. *)
Definition rounded_to (ndigits : nat) (x r : Q) : Prop :=
  let unit := Pos.pow 10 (Pos.of_nat ndigits) in
  (exists k : Z, (r == k # unit)%Q) /\
  (x - (1 # (2 * unit)) <= r <= x + (1 # (2 * unit)))%Q.

(** Each event starts when the one before it ends. *)
Fixpoint contiguous (events : list Event.t) : Prop :=
  match events with
  | e1 :: (e2 :: _) as rest =>
      Event.start e2 = Event.start e1 + timedelta (Event.hours e1)
      /\ contiguous rest
  | _ => True
  end.

(** The ELD status the code gives an event of a given type. *)
Definition status_of (type : string) : string :=
  if String.eqb type "drive" then "D" else "ON".

(** The five requests of a simulation that reaches its end. *)
Definition five_requests (token a b c : json) (cur pick drop : Coord)
    : list Request :=
  [GeocodeSearch a token; GeocodeSearch b token; GeocodeSearch c token;
   Routing [cur; pick] token; Routing [pick; drop] token].


(** ** Proof steps *)

(** Split a sequenced call on its outcome. *)
Ltac step_call H :=
  match type of H with
  | context [match ?c ?env ?tr with _ => _ end] =>
      let r := fresh "r" in
      let t := fresh "tr" in
      let E := fresh "E" in
      destruct (c env tr) as [[r|r] t] eqn:E; cbv beta iota in H;
      [try discriminate H|]
  end.

(** Unfold the monad's operations. *)
Ltac unfold_monad :=
  unfold mbind, M_bind, mret, M_ret, raise, try_except, ask, get_geocode,
    get_routing, getkey, getitem in *.

(** Name the outcome of the next provider call, given the trace it
    leaves. *)
Ltac next_call trace_fact res t :=
  let E := fresh "E" in
  let Ht := fresh "Ht" in
  pose proof trace_fact as Ht;
  match type of Ht with
  | snd ?call = _ =>
      destruct call as [res t] eqn:E; cbn [snd app] in Ht; subst t
  end.

(** * Properties *)

(** ** Comparisons and [min] *)

Lemma ltb_true x y : Py.ltb x y = true <-> (x < y)%Q.
Proof.
  unfold Py.ltb. rewrite Qlt_alt. destruct (x ?= y)%Q; split; congruence.
Qed.

Lemma ltb_false x y : Py.ltb x y = false <-> (y <= x)%Q.
Proof.
  unfold Py.ltb, Qle. rewrite <- Z.ge_le_iff. unfold Z.ge, Qcompare.
  destruct (Qnum x * Zpos (Qden y) ?= Qnum y * Zpos (Qden x)); split; congruence.
Qed.

Lemma leb_true x y : Py.leb x y = true <-> (x <= y)%Q.
Proof.
  unfold Py.leb, Qle, Z.le, Qcompare.
  destruct (Qnum x * Zpos (Qden y) ?= Qnum y * Zpos (Qden x)); split; congruence.
Qed.

Lemma leb_false x y : Py.leb x y = false <-> (y < x)%Q.
Proof.
  unfold Py.leb. rewrite Qgt_alt. destruct (x ?= y)%Q; split; congruence.
Qed.

(** [min(h, 2.0)] is [2.0] exactly when [h > 2], and [h] itself otherwise. *)
Lemma min_two h :
  (Py.ltb 2 h = true /\ Py.min h 2 = 2%Q) \/
  (Py.ltb 2 h = false /\ Py.min h 2 = h).
Proof. unfold Py.min. destruct (Py.ltb 2 h); auto. Qed.

(** Hours remain after the first segment exactly when [h > 2]. *)
Lemma remaining_after_first h :
  Py.ltb 0 (h - Py.min h 2) = Py.ltb 2 h.
Proof.
  destruct (min_two h) as [[E ->]|[E ->]]; rewrite E.
  - apply ltb_true in E. apply ltb_true. lra.
  - apply ltb_false. lra.
Qed.

(** ** Rounding *)

Lemma round_half_even_near x :
  (x - (1 # 2) <= inject_Z (Py.round_half_even x) <= x + (1 # 2))%Q.
Proof.
  unfold Py.round_half_even.
  pose proof (Qfloor_le x) as Hlo. pose proof (Qlt_floor x) as Hhi.
  rewrite inject_Z_plus in Hhi. change (inject_Z 1) with 1%Q in Hhi.
  destruct (Qcompare_spec (x - inject_Z (Qfloor x)) (1 # 2)) as [E|E|E].
  - destruct (Z.even (Qfloor x)).
    + lra.
    + rewrite inject_Z_plus. change (inject_Z 1) with 1%Q. lra.
  - lra.
  - rewrite inject_Z_plus. change (inject_Z 1) with 1%Q. lra.
Qed.

Lemma round_half_even_comp x y :
  (x == y)%Q -> Py.round_half_even x = Py.round_half_even y.
Proof.
  intros E. unfold Py.round_half_even.
  rewrite (Qfloor_comp _ _ E).
  assert (E' : (x - inject_Z (Qfloor y) == y - inject_Z (Qfloor y))%Q)
    by (rewrite E; reflexivity).
  now rewrite (Qcompare_comp _ _ E' _ _ (Qeq_refl (1 # 2))).
Qed.

Lemma round_comp x y n : (x == y)%Q -> Py.round x n = Py.round y n.
Proof.
  intros E. unfold Py.round. destruct n.
  - now rewrite (round_half_even_comp _ _ E).
  - f_equal. apply round_half_even_comp. now rewrite E.
Qed.

Lemma round_half_even_mono x y :
  (x <= y)%Q -> Py.round_half_even x <= Py.round_half_even y.
Proof.
  intros Hxy. pose proof (Qfloor_resp_le _ _ Hxy) as Hf.
  unfold Py.round_half_even.
  destruct (Z.eq_dec (Qfloor x) (Qfloor y)) as [Heq|Hne].
  - rewrite Heq.
    destruct (Qcompare_spec (x - inject_Z (Qfloor y)) (1 # 2));
      destruct (Qcompare_spec (y - inject_Z (Qfloor y)) (1 # 2));
      try destruct (Z.even (Qfloor y)); try lia; lra.
  - assert (Qfloor x + 1 <= Qfloor y) by lia.
    destruct (x - inject_Z (Qfloor x) ?= 1 # 2)%Q;
      destruct (y - inject_Z (Qfloor y) ?= 1 # 2)%Q;
      try destruct (Z.even (Qfloor x)); try destruct (Z.even (Qfloor y)); lia.
Qed.

Lemma scaled a p : (Qmake a p == inject_Z a / inject_Z (Zpos p))%Q.
Proof. apply Qmake_Qdiv. Qed.

(** [round(x, 1)] is within half a tenth of [x]. *)
Lemma round1_near x : (x - (1 # 20) <= Py.round x 1 <= x + (1 # 20))%Q.
Proof.
  change (Py.round x 1)
    with (Qmake (Py.round_half_even (x * inject_Z 10)) 10).
  pose proof (round_half_even_near (x * inject_Z 10)) as H.
  set (z := Py.round_half_even (x * inject_Z 10)) in *.
  assert (E : (z # 10 == inject_Z z * (1 # 10))%Q).
  { rewrite scaled. reflexivity. }
  change (inject_Z 10) with 10%Q in H.
  set (r := (z # 10)%Q) in *. clearbody r. split; lra.
Qed.

Lemma round_mono x y n : (x <= y)%Q -> (Py.round x n <= Py.round y n)%Q.
Proof.
  intros Hxy. unfold Py.round. destruct n.
  - rewrite <- Zle_Qle. now apply round_half_even_mono.
  - set (s := (10 ^ Pos.of_nat (S n))%positive).
    assert (Hz : Py.round_half_even (x * inject_Z (Zpos s))
                 <= Py.round_half_even (y * inject_Z (Zpos s))).
    { apply round_half_even_mono. apply Qmult_le_compat_r; [exact Hxy|].
      change 0%Q with (inject_Z 0). rewrite <- Zle_Qle. lia. }
    unfold Qle. cbn. nia.
Qed.


Lemma round2_rounded x : rounded_to 2 x (Py.round x 2).
Proof.
  split; [exists (Py.round_half_even (x * inject_Z 100)); reflexivity|].
  change (Py.round x 2)
    with (Qmake (Py.round_half_even (x * inject_Z 100)) 100).
  cbv zeta.
  change (10 ^ Pos.of_nat 2)%positive with 100%positive.
  change (2 * 100)%positive with 200%positive.
  pose proof (round_half_even_near (x * inject_Z 100)) as H.
  set (z := Py.round_half_even (x * inject_Z 100)) in *.
  assert (E : (z # 100 == inject_Z z * (1 # 100))%Q).
  { rewrite scaled. reflexivity. }
  change (inject_Z 100) with 100%Q in H.
  set (r := (z # 100)%Q) in *. clearbody r. split; lra.
Qed.


(** ** The constructor *)

Lemma init_inv tok u env tr self tr' :
  TripSimulator.init tok u env tr = (inr self, tr') ->
  tr' = tr /\
  TripSimulator.remaining_cycle self = 70 - u /\
  TripSimulator.pickup_time self = 1 /\
  TripSimulator.dropoff_time self = 1 /\
  TripSimulator.fuel_time self = (1 # 2)%Q /\
  truthy (TripSimulator.geoapify_token self) = true.
Proof.
  unfold TripSimulator.init, mbind, M_bind, ask, mret, M_ret, raise.
  destruct (negb _) eqn:E; [discriminate|].
  intros H. injection H as <- <-. cbn. repeat split; trivial.
  now apply negb_false_iff in E.
Qed.

(** ** The timeline builder in closed form *)

(** On a trip of more than two driving hours. *)
Lemma timeline_long self h d n env tr :
  TripSimulator.pickup_time self = 1 ->
  TripSimulator.dropoff_time self = 1 ->
  Py.ltb 2 h = true ->
  let now := datetime_now env in
  let day := replace_midnight now in
  let t1 := now + timedelta 2 in
  let t2 := t1 + timedelta 1 in
  let t3 := t2 + timedelta (h - 2) in
  let entry := TripSimulator.create_eld_log_entry self in
  TripSimulator.simulate_trip_timeline self h d n env tr =
  (inr ([ {| Event.type := "drive"; Event.hours := 2;
             Event.note := "Driving to pickup location"; Event.start := now |};
          {| Event.type := "pickup"; Event.hours := 1;
             Event.note := "Loading at pickup location"; Event.start := t1 |};
          {| Event.type := "drive"; Event.hours := h - 2;
             Event.note := "Main route to destination"; Event.start := t2 |};
          {| Event.type := "dropoff"; Event.hours := 1;
             Event.note := "Unloading at destination"; Event.start := t3 |} ],
        [ {| DailyLog.date := date day;
             DailyLog.entries :=
               [ entry "D" 2%Q "Driving to pickup" now day;
                 entry "ON" 1%Q "Loading" t1 day;
                 entry "D" (h - 2)%Q "Route driving" t2 day;
                 entry "ON" 1%Q "Unloading" t3 day ];
             DailyLog.total_driving := h;
             DailyLog.total_on_duty := h + 1 + 1 |} ]), tr).
Proof.
  intros Hp Hd E. cbv zeta.
  unfold TripSimulator.simulate_trip_timeline, mbind, M_bind, ask, mret, M_ret.
  rewrite remaining_after_first, Hp, Hd.
  unfold Py.min. rewrite E. reflexivity.
Qed.

(** On a trip of at most two driving hours. *)
Lemma timeline_short self h d n env tr :
  TripSimulator.pickup_time self = 1 ->
  TripSimulator.dropoff_time self = 1 ->
  Py.ltb 2 h = false ->
  let now := datetime_now env in
  let day := replace_midnight now in
  let t1 := now + timedelta h in
  let t2 := t1 + timedelta 1 in
  let entry := TripSimulator.create_eld_log_entry self in
  TripSimulator.simulate_trip_timeline self h d n env tr =
  (inr ([ {| Event.type := "drive"; Event.hours := h;
             Event.note := "Driving to pickup location"; Event.start := now |};
          {| Event.type := "pickup"; Event.hours := 1;
             Event.note := "Loading at pickup location"; Event.start := t1 |};
          {| Event.type := "dropoff"; Event.hours := 1;
             Event.note := "Unloading at destination"; Event.start := t2 |} ],
        [ {| DailyLog.date := date day;
             DailyLog.entries :=
               [ entry "D" h "Driving to pickup" now day;
                 entry "ON" 1%Q "Loading" t1 day;
                 entry "ON" 1%Q "Unloading" t2 day ];
             DailyLog.total_driving := h;
             DailyLog.total_on_duty := h + 1 + 1 |} ]), tr).
Proof.
  intros Hp Hd E. cbv zeta.
  unfold TripSimulator.simulate_trip_timeline, mbind, M_bind, ask, mret, M_ret.
  rewrite remaining_after_first, Hp, Hd.
  unfold Py.min. rewrite E. reflexivity.
Qed.

(** The model's [min] is the standard minimum. *)
Lemma min_Qmin a b : Py.min a b = Qmin a b.
Proof.
  unfold Py.min, Py.ltb, Qmin, GenericMinMax.gmin.
  rewrite <- (Qcompare_antisym a b). destruct (a ?= b)%Q; reflexivity.
Qed.

(** ** The timeline builder *)

(** C1. For every driving time [h >= 0] the timeline builder returns the
    events Drive [min(h, 2)], Pickup [1], a single Drive of the remaining
    [h - min(h, 2)] hours exactly when that remainder is positive, and
    Dropoff [1]; the log entries of the one daily log carry the same
    durations under the labels "Driving to pickup", "Loading",
    "Route driving" and "Unloading". *)
Theorem timeline_event_sequence tok u env0 tr0 self tr0' h d n env tr :
  TripSimulator.init tok u env0 tr0 = (inr self, tr0') ->
  (0 <= h)%Q ->
  let first := Qmin h 2 in
  let rest := (h - first)%Q in
  exists events log,
    TripSimulator.simulate_trip_timeline self h d n env tr
      = (inr (events, [log]), tr) /\
    map event_view events =
      [("drive", first, "Driving to pickup location");
       ("pickup", 1%Q, "Loading at pickup location")]
      ++ (if Qlt_le_dec 0 rest
          then [("drive", rest, "Main route to destination")] else [])
      ++ [("dropoff", 1%Q, "Unloading at destination")] /\
    map entry_view (DailyLog.entries log) =
      [("D", first, "Driving to pickup"); ("ON", 1%Q, "Loading")]
      ++ (if Qlt_le_dec 0 rest then [("D", rest, "Route driving")] else [])
      ++ [("ON", 1%Q, "Unloading")].
Proof.
  intros Hinit _ first rest. subst first rest.
  destruct (init_inv _ _ _ _ _ _ Hinit) as (_ & _ & Hp & Hd & _).
  rewrite <- min_Qmin.
  destruct (min_two h) as [[E Hm]|[E Hm]]; rewrite Hm.
  - eexists _, _. split; [apply (timeline_long self h d n env tr Hp Hd E)|].
    apply ltb_true in E.
    destruct (Qlt_le_dec 0 (h - 2)) as [_|Hle]; [split; reflexivity | lra].
  - eexists _, _. split; [apply (timeline_short self h d n env tr Hp Hd E)|].
    destruct (Qlt_le_dec 0 (h - h)) as [Hlt|_]; [lra | split; reflexivity].
Qed.

Lemma timeline_event_sequence_witness :
  TripSimulator.init JNull 0 sample_env [] = (inr (sample_sim 0), []) /\
  (0 <= 15)%Q /\
  exists events log,
    TripSimulator.simulate_trip_timeline (sample_sim 0) 15 2500 2 sample_env []
      = (inr (events, [log]), []) /\
    map event_view events =
      [("drive", Qmin 15 2, "Driving to pickup location");
       ("pickup", 1%Q, "Loading at pickup location")]
      ++ (if Qlt_le_dec 0 (15 - Qmin 15 2)
          then [("drive", (15 - Qmin 15 2)%Q,
                 "Main route to destination")] else [])
      ++ [("dropoff", 1%Q, "Unloading at destination")] /\
    map entry_view (DailyLog.entries log) =
      [("D", Qmin 15 2, "Driving to pickup"); ("ON", 1%Q, "Loading")]
      ++ (if Qlt_le_dec 0 (15 - Qmin 15 2)
          then [("D", (15 - Qmin 15 2)%Q, "Route driving")] else [])
      ++ [("ON", 1%Q, "Unloading")].
Proof.
  split; [reflexivity|]. split; [discriminate|].
  apply (timeline_event_sequence JNull 0 sample_env [] (sample_sim 0) []
           15 2500 2 sample_env []); [reflexivity | discriminate].
Defined.

(** The two scenarios of the specification, evaluated. *)
Example scenario_short_trip :
  (let '(r, _) :=
     TripSimulator.simulate_trip_timeline (sample_sim 0) 1 500 0 sample_env []
   in match r with
      | inr (events, _) => map event_view events
      | inl _ => []
      end)
  = [("drive", 1%Q, "Driving to pickup location");
     ("pickup", 1%Q, "Loading at pickup location");
     ("dropoff", 1%Q, "Unloading at destination")].
Proof. reflexivity. Qed.

Example scenario_long_trip :
  (let '(r, _) :=
     TripSimulator.simulate_trip_timeline (sample_sim 0) 15 2500 2 sample_env []
   in match r with
      | inr (events, _) => map event_view events
      | inl _ => []
      end)
  = [("drive", 2%Q, "Driving to pickup location");
     ("pickup", 1%Q, "Loading at pickup location");
     ("drive", 13%Q, "Main route to destination");
     ("dropoff", 1%Q, "Unloading at destination")].
Proof. reflexivity. Qed.

(** C6. The single daily log records the driving-hours input itself as
    [total_driving] and that input plus the two fixed hours of pickup and
    dropoff as [total_on_duty]; the durations of the Drive events add up
    to the input. *)
Theorem daily_log_totals tok u env0 tr0 self tr0' h d n env tr :
  TripSimulator.init tok u env0 tr0 = (inr self, tr0') ->
  exists events log,
    TripSimulator.simulate_trip_timeline self h d n env tr
      = (inr (events, [log]), tr) /\
    DailyLog.total_driving log = h /\
    (DailyLog.total_on_duty log == h + 2)%Q /\
    (drive_hours events == h)%Q.
Proof.
  intros Hinit.
  destruct (init_inv _ _ _ _ _ _ Hinit) as (_ & _ & Hp & Hd & _).
  destruct (Py.ltb 2 h) eqn:E.
  - eexists _, _. split; [apply (timeline_long self h d n env tr Hp Hd E)|].
    cbn. repeat split; lra.
  - eexists _, _. split; [apply (timeline_short self h d n env tr Hp Hd E)|].
    cbn. repeat split; lra.
Qed.

Lemma daily_log_totals_witness :
  TripSimulator.init JNull 0 sample_env [] = (inr (sample_sim 0), []) /\
  exists events log,
    TripSimulator.simulate_trip_timeline (sample_sim 0) (31 # 2) 900 0
                                         sample_env []
      = (inr (events, [log]), []) /\
    DailyLog.total_driving log = (31 # 2)%Q /\
    (DailyLog.total_on_duty log == (31 # 2) + 2)%Q /\
    (drive_hours events == 31 # 2)%Q.
Proof.
  split; [reflexivity|].
  apply (daily_log_totals JNull 0 sample_env [] (sample_sim 0) []
           (31 # 2) 900 0 sample_env []); reflexivity.
Defined.

(** C7, as the code has it. For a driving time [h > 0] every event and
    every log entry has a strictly positive duration, and for [h <= 2] the
    route-driving segment is left out rather than emitted with zero
    length. *)
Theorem positive_durations tok u env0 tr0 self tr0' h d n env tr :
  TripSimulator.init tok u env0 tr0 = (inr self, tr0') ->
  (0 < h)%Q ->
  exists events log,
    TripSimulator.simulate_trip_timeline self h d n env tr
      = (inr (events, [log]), tr) /\
    Forall (fun e => (0 < Event.hours e)%Q) events /\
    Forall (fun e => (0 < LogEntry.hours e)%Q) (DailyLog.entries log) /\
    ((h <= 2)%Q ->
     map Event.type events = ["drive"; "pickup"; "dropoff"] /\
     map LogEntry.description (DailyLog.entries log)
       = ["Driving to pickup"; "Loading"; "Unloading"]).
Proof.
  intros Hinit Hpos.
  destruct (init_inv _ _ _ _ _ _ Hinit) as (_ & _ & Hp & Hd & _).
  destruct (Py.ltb 2 h) eqn:E.
  - eexists _, _. split; [apply (timeline_long self h d n env tr Hp Hd E)|].
    apply ltb_true in E. cbn.
    split; [|split]; [repeat constructor; cbn; lra .. |]. intros; lra.
  - eexists _, _. split; [apply (timeline_short self h d n env tr Hp Hd E)|].
    cbn. split; [|split]; [repeat constructor; cbn; lra .. |].
    intros _. split; reflexivity.
Qed.

Lemma positive_durations_witness :
  TripSimulator.init JNull 0 sample_env [] = (inr (sample_sim 0), []) /\
  (0 < 3 # 2)%Q /\
  exists events log,
    TripSimulator.simulate_trip_timeline (sample_sim 0) (3 # 2) 80 0
                                         sample_env []
      = (inr (events, [log]), []) /\
    Forall (fun e => (0 < Event.hours e)%Q) events /\
    Forall (fun e => (0 < LogEntry.hours e)%Q) (DailyLog.entries log) /\
    ((3 # 2 <= 2)%Q ->
     map Event.type events = ["drive"; "pickup"; "dropoff"] /\
     map LogEntry.description (DailyLog.entries log)
       = ["Driving to pickup"; "Loading"; "Unloading"]).
Proof.
  split; [reflexivity|]. split; [reflexivity|].
  apply (positive_durations JNull 0 sample_env [] (sample_sim 0) []
           (3 # 2) 80 0 sample_env []); reflexivity.
Defined.

(** C7 as stated fails at [h = 0]: the first Drive event is emitted with a
    duration of zero hours. *)
Lemma zero_hour_trip_emits_zero_duration_drive :
  exists e rest logs,
    TripSimulator.simulate_trip_timeline (sample_sim 0) 0 0 0 sample_env []
      = (inr (e :: rest, logs), []) /\
    Event.type e = "drive" /\
    Event.hours e = 0%Q /\
    ~ (0 < Event.hours e)%Q.
Proof.
  eexists _, _, _. split.
  - apply (timeline_short (sample_sim 0) 0 0 0 sample_env []); reflexivity.
  - cbn. repeat split. intros H. discriminate H.
Qed.

(** C8. The timeline builder sends no request and reads nothing but the
    clock: two calls with the same arguments, on any two simulators the
    constructor returned, in any two environments whose clocks read the
    same time, return the same events and daily logs. *)
Theorem timeline_deterministic
    tok1 u1 e1 t1 self1 t1' tok2 u2 e2 t2 self2 t2' h d n env1 env2 tr1 tr2 :
  TripSimulator.init tok1 u1 e1 t1 = (inr self1, t1') ->
  TripSimulator.init tok2 u2 e2 t2 = (inr self2, t2') ->
  datetime_now env1 = datetime_now env2 ->
  fst (TripSimulator.simulate_trip_timeline self1 h d n env1 tr1)
    = fst (TripSimulator.simulate_trip_timeline self2 h d n env2 tr2) /\
  snd (TripSimulator.simulate_trip_timeline self1 h d n env1 tr1) = tr1.
Proof.
  intros H1 H2 Hclock.
  destruct (init_inv _ _ _ _ _ _ H1) as (_ & _ & Hp1 & Hd1 & _).
  destruct (init_inv _ _ _ _ _ _ H2) as (_ & _ & Hp2 & Hd2 & _).
  destruct (Py.ltb 2 h) eqn:E.
  - rewrite (timeline_long self1 h d n env1 tr1 Hp1 Hd1 E),
            (timeline_long self2 h d n env2 tr2 Hp2 Hd2 E), Hclock.
    split; reflexivity.
  - rewrite (timeline_short self1 h d n env1 tr1 Hp1 Hd1 E),
            (timeline_short self2 h d n env2 tr2 Hp2 Hd2 E), Hclock.
    split; reflexivity.
Qed.

Lemma timeline_deterministic_witness :
  TripSimulator.init JNull 0 sample_env [] = (inr (sample_sim 0), []) /\
  TripSimulator.init (JString "secret") 25 offline_env []
    = (inr (sample_sim 25), []) /\
  datetime_now sample_env = datetime_now offline_env /\
  fst (TripSimulator.simulate_trip_timeline (sample_sim 0) 15 2500 2
         sample_env [])
    = fst (TripSimulator.simulate_trip_timeline (sample_sim 25) 15 2500 2
             offline_env [GeocodeSearch (JString "Denver") (JString "secret")]) /\
  snd (TripSimulator.simulate_trip_timeline (sample_sim 0) 15 2500 2
         sample_env []) = [].
Proof.
  split; [reflexivity|]. split; [reflexivity|]. split; [reflexivity|].
  apply (timeline_deterministic
           JNull 0 sample_env [] (sample_sim 0) []
           (JString "secret") 25 offline_env [] (sample_sim 25) []);
    reflexivity.
Defined.

(** ** The fuel-stop planner *)

Lemma thousandth d : (d / 1000 == d * (1 # 1000))%Q.
Proof. reflexivity. Qed.

(** C2. At most 1000 miles need no fuel stop, 1000 miles exactly
    included; beyond, the count is [ceil(d / 1000) - 1], that is the
    [n >= 1] with [1000 n < d <= 1000 (n + 1)]; the count is never
    negative. *)
Theorem fuel_stop_count self d :
  let n := TripSimulator.calculate_fuel_stops self d in
  ((d <= 1000)%Q -> n = 0) /\
  TripSimulator.calculate_fuel_stops self 1000 = 0 /\
  ((1000 < d)%Q ->
     n = Qceiling (d / 1000) - 1 /\
     1 <= n /\
     (inject_Z n * 1000 < d)%Q /\
     (d <= (inject_Z n + 1) * 1000)%Q) /\
  0 <= n.
Proof.
  cbv zeta. unfold TripSimulator.calculate_fuel_stops, Py.ceil.
  assert (Hbig : (1000 < d)%Q ->
            1 <= Qceiling (d / 1000) - 1 /\
            (inject_Z (Qceiling (d / 1000) - 1) * 1000 < d)%Q /\
            (d <= (inject_Z (Qceiling (d / 1000) - 1) + 1) * 1000)%Q).
  { intros Hd.
    pose proof (Qceiling_lt (d / 1000)) as Hlo.
    pose proof (Qle_ceiling (d / 1000)) as Hhi.
    pose proof (thousandth d) as Hdiv.
    assert (H1 : (inject_Z 1 < inject_Z (Qceiling (d / 1000)))%Q).
    { change (inject_Z 1) with 1%Q. lra. }
    rewrite <- Zlt_Qlt in H1.
    split; [lia|]. clear H1.
    unfold Z.sub in *. rewrite inject_Z_plus, inject_Z_opp in *.
    change (inject_Z 1) with 1%Q in *.
    set (c := inject_Z (Qceiling (d / 1000))) in *. clearbody c.
    set (x := (d / 1000)%Q) in *. clearbody x.
    split; lra. }
  split; [|split; [reflexivity|split]].
  - intros Hd. apply leb_true in Hd. now rewrite Hd.
  - intros Hd. pose proof Hd as Hd'. apply leb_false in Hd'. rewrite Hd'.
    destruct (Hbig Hd) as (? & ? & ?). auto.
  - destruct (Py.leb d 1000) eqn:E; [lia|].
    apply leb_false in E. destruct (Hbig E). lia.
Qed.

Lemma fuel_stop_count_witness :
  (1000 < 2500)%Q /\
  TripSimulator.calculate_fuel_stops (sample_sim 0) 2500
    = Qceiling (2500 / 1000) - 1 /\
  1 <= TripSimulator.calculate_fuel_stops (sample_sim 0) 2500 /\
  (inject_Z (TripSimulator.calculate_fuel_stops (sample_sim 0) 2500) * 1000
   < 2500)%Q /\
  (2500 <= (inject_Z (TripSimulator.calculate_fuel_stops (sample_sim 0) 2500)
            + 1) * 1000)%Q.
Proof.
  split; [reflexivity|].
  apply (proj1 (proj2 (proj2 (fuel_stop_count (sample_sim 0) 2500)))).
  reflexivity.
Defined.

(** The scenario of the specification: 2500 miles need two stops, at
    thirds of the way from pickup to dropoff. *)
Example scenario_fuel_stops :
  TripSimulator.calculate_fuel_stops (sample_sim 0) 2500 = 2 /\
  map (fun s => (FuelLocation.name s, FuelLocation.distance_from_start s))
      (TripSimulator.generate_fuel_locations
         (41%Q, (-96)%Q) (42%Q, (-88)%Q) 2)
    = [("Fuel Stop 1", 1000); ("Fuel Stop 2", 2000)].
Proof. split; reflexivity. Qed.



Lemma fuel_locations_length pickup dropoff n :
  length (TripSimulator.generate_fuel_locations pickup dropoff n) = Z.to_nat n.
Proof.
  unfold TripSimulator.generate_fuel_locations, TripSimulator.range.
  destruct (Z.ltb_spec 0 n).
  - now rewrite !length_map, length_seq.
  - cbn. lia.
Qed.

Lemma fraction_bounds i n :
  1 <= i <= n -> (0 < inject_Z i / inject_Z (n + 1) < 1)%Q.
Proof.
  intros Hi.
  assert (Hn : (0 < inject_Z (n + 1))%Q).
  { change 0%Q with (inject_Z 0). rewrite <- Zlt_Qlt. lia. }
  split.
  - apply Qlt_shift_div_l; [exact Hn|]. rewrite Qmult_0_l.
    change 0%Q with (inject_Z 0). rewrite <- Zlt_Qlt. lia.
  - apply Qlt_shift_div_r; [exact Hn|]. rewrite Qmult_1_l.
    rewrite <- Zlt_Qlt. lia.
Qed.





(** ** The trip orchestrator *)

(** The timeline builder always returns, and sends nothing. *)
Lemma timeline_returns self h d n env tr :
  exists events log,
    TripSimulator.simulate_trip_timeline self h d n env tr
      = (inr (events, [log]), tr) /\
    DailyLog.total_driving log = h.
Proof.
  unfold TripSimulator.simulate_trip_timeline, mbind, M_bind, ask, mret, M_ret.
  cbv zeta. destruct (Py.ltb 0 _); eexists _, _; split; reflexivity.
Qed.

(** A simulation that returns went through the five provider calls in
    order and assembled its result from their answers. *)
Lemma simulate_inv self a b c env tr r tr' :
  TripSimulator.simulate self a b c env tr = (inr r, tr') ->
  10 <= TripSimulator.remaining_cycle self /\
  exists cur pick drop leg1 leg2 tr1 tr2 tr3 tr4,
    TripSimulator.geocode self a env tr = (inr cur, tr1) /\
    TripSimulator.geocode self b env tr1 = (inr pick, tr2) /\
    TripSimulator.geocode self c env tr2 = (inr drop, tr3) /\
    TripSimulator.get_route self cur pick None env tr3 = (inr leg1, tr4) /\
    TripSimulator.get_route self pick drop None env tr4 = (inr leg2, tr') /\
    let d := (Route.distance leg1 + Route.distance leg2)%Q in
    let h := (Route.duration leg1 + Route.duration leg2)%Q in
    let n := TripSimulator.calculate_fuel_stops self d in
    exists events log,
      TripSimulator.simulate_trip_timeline self h d n env tr'
        = (inr (events, [log]), tr') /\
      DailyLog.total_driving log = h /\
      r = {|
        Result.events := events;
        Result.daily_logs := [log];
        Result.total_distance := Py.round d 1;
        Result.total_driving_hours := Py.round h 1;
        Result.route_geojson := Route.geojson leg2;
        Result.fuel_stops := n;
        Result.fuel_locations :=
          TripSimulator.generate_fuel_locations pick drop n;
        Result.remaining_cycle_hours :=
          Py.round (inject_Z (TripSimulator.remaining_cycle self) - h
                    - inject_Z (TripSimulator.pickup_time self)
                    - inject_Z (TripSimulator.dropoff_time self)
                    - inject_Z n * TripSimulator.fuel_time self) 1;
        Result.status := "success";
        Result.message := "Trip simulation completed successfully" |}.
Proof.
  unfold TripSimulator.simulate.
  destruct (Z.ltb_spec (TripSimulator.remaining_cycle self) 10) as [|Hge];
    [discriminate|].
  intros H. split; [exact Hge|].
  unfold try_except, mbind, M_bind in H.
  step_call H. step_call H. step_call H. step_call H. step_call H.
  match type of H with
  | context [TripSimulator.simulate_trip_timeline ?s ?h ?d ?n ?e ?t] =>
      destruct (timeline_returns s h d n e t) as (events & log & Et & Hlog)
  end.
  rewrite Et in H. cbv beta iota in H. unfold mret, M_ret in H.
  injection H as <- <-.
  eexists _, _, _, _, _, _, _, _, _.
  split; [reflexivity|]. repeat (split; [eassumption|]).
  cbv zeta. eexists _, _. split; [exact Et|]. split; [exact Hlog|reflexivity].
Qed.


(** C4. With fewer than 10 cycle hours left, [simulate] raises the
    validation error whatever the addresses, and the trace of requests is
    left as it was: no geocoding or routing call is made. *)
Theorem refusal_before_any_request self a b c env tr :
  TripSimulator.remaining_cycle self < 10 ->
  TripSimulator.simulate self a b c env tr
    = (inl (ValueError InsufficientCycleHours), tr).
Proof.
  intros Hlt. unfold TripSimulator.simulate.
  destruct (Z.ltb_spec (TripSimulator.remaining_cycle self) 10); [|lia].
  reflexivity.
Qed.

Lemma refusal_before_any_request_witness :
  TripSimulator.remaining_cycle (sample_sim 61) < 10 /\
  TripSimulator.simulate (sample_sim 61) (JString "Denver") (JString "Omaha")
                         (JString "Chicago") sample_env []
    = (inl (ValueError InsufficientCycleHours), []).
Proof.
  split; [reflexivity|].
  apply (refusal_before_any_request (sample_sim 61) (JString "Denver")
           (JString "Omaha") (JString "Chicago") sample_env []).
  reflexivity.
Defined.

(** The cycle hours left after a trip that was simulated, in terms of the
    simulator's [remaining_cycle], the unrounded driving hours (which the
    daily log records) and the fuel-stop count. *)
Lemma remaining_after_simulation tok u env0 tr0 self tr0' a b c env tr r tr' :
  TripSimulator.init tok u env0 tr0 = (inr self, tr0') ->
  TripSimulator.simulate self a b c env tr = (inr r, tr') ->
  exists log,
    Result.daily_logs r = [log] /\
    Result.total_driving_hours r = Py.round (DailyLog.total_driving log) 1 /\
    Result.remaining_cycle_hours r =
      Py.round (inject_Z (TripSimulator.remaining_cycle self)
                - DailyLog.total_driving log - 1 - 1
                - inject_Z (Result.fuel_stops r) * (1 # 2)) 1.
Proof.
  intros Hinit Hsim.
  destruct (init_inv _ _ _ _ _ _ Hinit) as (_ & _ & Hp & Hd & Hf & _).
  destruct (simulate_inv _ _ _ _ _ _ _ _ Hsim)
    as (_ & cur & pick & drop & leg1 & leg2 & tr1 & tr2 & tr3 & tr4
        & _ & _ & _ & _ & _ & events & log & _ & Hlog & ->).
  exists log. cbn. rewrite Hlog, Hp, Hd, Hf. repeat split.
Qed.






(** The sample trip leaves 17 cycle hours after 20 used. *)
Example sample_trip_remaining :
  match fst (TripSimulator.simulate (sample_sim 20) (JString "Denver")
               (JString "Omaha") (JString "Chicago") sample_env []) with
  | inr r => (Result.remaining_cycle_hours r == 17)%Q
  | inl _ => False
  end.
Proof. vm_compute. reflexivity. Qed.

(** ** The request boundary *)

(** A [ValueError] raised under the handler is answered as a validation
    error, with the trace as it stood when it was raised. *)
Lemma value_error_is_bad_request data env tr msg tr' :
  Views.simulate_trip_body data env tr = (inl (ValueError msg), tr') ->
  Views.simulate_trip data env tr = (inr (Views.BadRequest msg), tr').
Proof.
  intros H. unfold Views.simulate_trip, try_except. now rewrite H.
Qed.

(** The handler looks at [current_cycle_used] only through what the parsing
    block makes of it. *)
Lemma simulate_trip_depends_on_parse (data data' : gmap string json) env tr :
  (forall key, key <> "current_cycle_used" -> data !! key = data' !! key) ->
  Views.parse_current_cycle_used data env tr
    = Views.parse_current_cycle_used data' env tr ->
  Views.simulate_trip data env tr = Views.simulate_trip data' env tr.
Proof.
  intros Hsame Hparse.
  unfold Views.simulate_trip, try_except, Views.simulate_trip_body,
    Views.first_missing, Views.required_fields.
  cbn [find].
  rewrite !(Hsame "current_location"), !(Hsame "pickup_location"),
    !(Hsame "dropoff_location"), !(Hsame "geoapify_token") by discriminate.
  repeat (case_bool_decide; [reflexivity|]).
  unfold mbind at 1 3. unfold M_bind at 1 3.
  rewrite Hparse. reflexivity.
Qed.

Lemma parse_inserted (data : gmap string json) v env tr :
  Views.parse_current_cycle_used (<["current_cycle_used" := v]> data) env tr
    = match Views.int (int_str env) v with
      | inr n => (inr n, tr)
      | inl (ValueError _) | inl TypeError => (inr 0, tr)
      | inl e => (inl e, tr)
      end.
Proof.
  unfold Views.parse_current_cycle_used. unfold_monad.
  rewrite lookup_insert_eq. cbn.
  destruct (Views.int (int_str env) v) as [[[]| | | | | |]|]; reflexivity.
Qed.

Lemma parse_present (data : gmap string json) v env tr :
  data !! "current_cycle_used" = Some v ->
  Views.parse_current_cycle_used data env tr
    = match Views.int (int_str env) v with
      | inr n => (inr n, tr)
      | inl (ValueError _) | inl TypeError => (inr 0, tr)
      | inl e => (inl e, tr)
      end.
Proof.
  intros H. rewrite <- (insert_id data _ _ H) at 1. apply parse_inserted.
Qed.

(** Sending the integer the parsing block arrives at changes nothing. *)
Lemma as_if_sent (data : gmap string json) n env tr :
  Views.parse_current_cycle_used data env tr = (inr n, tr) ->
  Views.simulate_trip data env tr
    = Views.simulate_trip (<["current_cycle_used" := JInt n]> data) env tr.
Proof.
  intros H. apply simulate_trip_depends_on_parse.
  - intros key Hkey. now rewrite lookup_insert_ne.
  - now rewrite parse_inserted.
Qed.

(** C9, as the code has it. [current_cycle_used] is optional and defaults
    to 0.  A value that [int()] rejects with a [ValueError] or a
    [TypeError] (null, an array, an object, a NaN, a string that [int()]
    does not read as an integer) is silently treated as 0.  Other
    non-integer values are converted, not zeroed: a finite float is
    truncated toward zero, a string that [int()] reads as an integer counts
    as that integer, a boolean counts as 0 or 1.  In each case the request
    is handled as if the resulting integer had been sent. *)
Theorem current_cycle_used_parsing (data : gmap string json) env tr :
  let key := "current_cycle_used" in
  let parsed := Views.parse_current_cycle_used data env tr in
  let as_if n :=
    Views.simulate_trip data env tr
      = Views.simulate_trip (<[key := JInt n]> data) env tr in
  (data !! key = None -> parsed = (inr 0, tr) /\ as_if 0) /\
  (forall n, data !! key = Some (JInt n) -> parsed = (inr n, tr)) /\
  (forall v,
     data !! key = Some v ->
     match v with
     | JNull | JArray _ | JObject _ | JFloat NaN => True
     | JString s => int_str env s = None
     | _ => False
     end ->
     parsed = (inr 0, tr) /\ as_if 0) /\
  (forall q,
     data !! key = Some (JFloat (Finite q)) ->
     parsed = (inr (Py.trunc q), tr) /\ as_if (Py.trunc q)) /\
  (forall s n,
     data !! key = Some (JString s) ->
     int_str env s = Some n ->
     parsed = (inr n, tr) /\ as_if n) /\
  (forall b,
     data !! key = Some (JBool b) ->
     parsed = (inr (if b then 1 else 0), tr) /\ as_if (if b then 1 else 0)).
Proof.
  cbv zeta.
  assert (Hboth : forall n,
            Views.parse_current_cycle_used data env tr = (inr n, tr) ->
            Views.parse_current_cycle_used data env tr = (inr n, tr) /\
            Views.simulate_trip data env tr
              = Views.simulate_trip (<["current_cycle_used" := JInt n]> data)
                  env tr).
  { intros n H. split; [exact H | now apply as_if_sent]. }
  split; [|split; [|split; [|split; [|split]]]].
  - intros H. apply Hboth. unfold Views.parse_current_cycle_used.
    unfold_monad. now rewrite H.
  - intros n H. now rewrite (parse_present data _ env tr H).
  - intros v H Hv. apply Hboth. rewrite (parse_present data _ env tr H).
    destruct v as [| | |[| |]| | |]; cbn in *; try contradiction;
      try reflexivity.
    now rewrite Hv.
  - intros q H. apply Hboth. now rewrite (parse_present data _ env tr H).
  - intros s n H Hs. apply Hboth. rewrite (parse_present data _ env tr H).
    cbn. now rewrite Hs.
  - intros b H. apply Hboth. now rewrite (parse_present data _ env tr H).
Qed.

Lemma current_cycle_used_parsing_witness :
  sample_request (JString "sixty") !! "current_cycle_used"
    = Some (JString "sixty") /\
  int_str sample_env "sixty" = None /\
  Views.parse_current_cycle_used (sample_request (JString "sixty")) sample_env []
    = (inr 0, []) /\
  Views.simulate_trip (sample_request (JString "sixty")) sample_env []
    = Views.simulate_trip
        (<["current_cycle_used" := JInt 0]> (sample_request (JString "sixty")))
        sample_env [].
Proof.
  split; [reflexivity|]. split; [reflexivity|].
  apply (proj1 (proj2 (proj2
           (current_cycle_used_parsing (sample_request (JString "sixty"))
              sample_env [])))
           (JString "sixty")); reflexivity.
Defined.

(** C9 as stated fails on a fractional number: 65.5 is read as 65, and the
    trip that would be simulated with 0 hours used is refused. *)
Lemma fractional_cycle_used_is_truncated :
  Views.parse_current_cycle_used
    (sample_request (JFloat (Finite (131 # 2)))) sample_env [] = (inr 65, []) /\
  Views.simulate_trip (sample_request (JFloat (Finite (131 # 2)))) sample_env []
    = (inr (Views.BadRequest InsufficientCycleHours), []) /\
  exists result tr,
    Views.simulate_trip (sample_request (JInt 0)) sample_env []
      = (inr (Views.Ok result), tr).
Proof.
  split; [vm_compute; reflexivity|]. split; [vm_compute; reflexivity|].
  eexists _, _. vm_compute. reflexivity.
Qed.

(** Values of the request body and what the parsing block makes of them. *)
Example cycle_used_as_text :
  Views.parse_current_cycle_used (sample_request (JString " 12 ")) sample_env []
    = (inr 12, []).
Proof. vm_compute. reflexivity. Qed.

Example cycle_used_not_a_number :
  Views.parse_current_cycle_used (sample_request (JString "twelve")) sample_env []
    = (inr 0, []).
Proof. vm_compute. reflexivity. Qed.

Example cycle_used_overflowing_literal :
  Views.simulate_trip (sample_request (JFloat (Infinity false))) sample_env []
    = (inr (Views.InternalServerError OverflowError), []).
Proof. vm_compute. reflexivity. Qed.

(** * Further properties of the code *)

(** ** The provider adapters *)

(** The geocoder sends one request and returns [(lat, lon)] exactly when
    the first feature of the answer holds at least the two coordinates
    [lon, lat], in the provider's order. *)
Theorem geocode_swaps_first_feature self address env tr :
  let token := TripSimulator.geoapify_token self in
  let outcome := TripSimulator.geocode self address env tr in
  snd outcome = tr ++ [GeocodeSearch address token] /\
  (forall lat lon,
     fst outcome = inr (lat, lon) <->
     exists rest more,
       geocode_api env tr address token
         = GeocodeJson (Some (lon :: lat :: rest) :: more)).
Proof.
  cbv zeta. unfold TripSimulator.geocode. unfold_monad.
  destruct (geocode_api env tr address (TripSimulator.geoapify_token self))
    as [detail|[|[[|lon' [|lat' rest']]|] more']]; cbn;
    (split; [reflexivity|]); intros lat lon; split;
    try discriminate; try (intros (? & ? & ?); discriminate).
  - intros H. injection H as <- <-. eauto.
  - intros (rest & more & H). now injection H as <- <- _ _.
Qed.



(** Inserting before the last element, one waypoint after the other, keeps
    the waypoints in order between the two ends. *)
Lemma insert_before_last_snoc {A} (x : A) (l : list A) (y : A) :
  TripSimulator.insert_before_last x (l ++ [y]) = l ++ [x; y].
Proof.
  induction l as [|a l IH]; [reflexivity|].
  cbn [app TripSimulator.insert_before_last]. rewrite IH.
  destruct l; reflexivity.
Qed.

Lemma waypoints_in_order {A} (wps : list A) (pre : list A) (e : A) :
  fold_left (fun l wp => TripSimulator.insert_before_last wp l) wps (pre ++ [e])
    = pre ++ wps ++ [e].
Proof.
  revert pre. induction wps as [|w wps IH]; intros pre; [reflexivity|].
  cbn [fold_left]. rewrite insert_before_last_snoc.
  change (pre ++ [w; e]) with (pre ++ [w] ++ [e]).
  rewrite app_assoc, IH, <- app_assoc. reflexivity.
Qed.

Lemma get_route_trace self start_coords end_coords waypoints env tr :
  snd (TripSimulator.get_route self start_coords end_coords waypoints env tr)
    = tr ++ [Routing (start_coords
                      :: match waypoints with Some wps => wps | None => [] end
                      ++ [end_coords])
                     (TripSimulator.geoapify_token self)].
Proof.
  unfold TripSimulator.get_route.
  set (wl := match waypoints with
             | Some ((_ :: _) as wps) => fold_left _ wps _
             | _ => _
             end).
  assert (Hwl : wl = start_coords
                     :: match waypoints with Some wps => wps | None => [] end
                     ++ [end_coords]).
  { subst wl. destruct waypoints as [[|w wps]|]; try reflexivity.
    apply (waypoints_in_order (w :: wps) [start_coords] end_coords). }
  rewrite Hwl. unfold_monad.
  destruct (routing_api env tr _ _) as [detail|message|[|feature more]];
    try reflexivity.
  destruct (Feature.properties feature) as [[[distance|] [time|]]|];
    try reflexivity.
  destruct (Feature.geometry feature); reflexivity.
Qed.

(** The router is asked once, for the start, the intermediate waypoints in
    the order given, and the end. *)
Theorem get_route_request self start_coords end_coords waypoints env tr :
  snd (TripSimulator.get_route self start_coords end_coords waypoints env tr)
    = tr ++ [Routing (start_coords
                      :: match waypoints with Some wps => wps | None => [] end
                      ++ [end_coords])
                     (TripSimulator.geoapify_token self)].
Proof.
  unfold TripSimulator.get_route.
  set (wl := match waypoints with
             | Some ((_ :: _) as wps) => fold_left _ wps _
             | _ => _
             end).
  assert (Hwl : wl = start_coords
                     :: match waypoints with Some wps => wps | None => [] end
                     ++ [end_coords]).
  { subst wl. destruct waypoints as [[|w wps]|]; try reflexivity.
    apply (waypoints_in_order (w :: wps) [start_coords] end_coords). }
  rewrite Hwl. unfold_monad.
  destruct (routing_api env tr _ _) as [detail|message|[|feature more]];
    try reflexivity.
  destruct (Feature.properties feature) as [[[distance|] [time|]]|];
    try reflexivity.
  destruct (Feature.geometry feature); reflexivity.
Qed.

Example route_request_with_waypoints :
  snd (TripSimulator.get_route (sample_sim 0) (1, 2)%Q (7, 8)%Q
         (Some [(3, 4)%Q; (5, 6)%Q]) sample_env [])
    = [Routing [(1, 2)%Q; (3, 4)%Q; (5, 6)%Q; (7, 8)%Q] (JString "secret")].
Proof. reflexivity. Qed.



(** A route comes back exactly when the first feature has its geometry and
    both the distance and the time; the distance is then converted from
    metres to miles and the time from seconds to hours. *)
Theorem get_route_converts_units
    self start_coords end_coords waypoints env tr route :
  fst (TripSimulator.get_route self start_coords end_coords waypoints env tr)
    = inr route <->
  exists geometry metres seconds more,
    routing_api env tr
      (start_coords :: match waypoints with Some wps => wps | None => [] end
       ++ [end_coords])
      (TripSimulator.geoapify_token self)
    = RoutingJson
        ({| Feature.geometry := Some geometry;
            Feature.properties := Some {|
              Properties.distance := Some metres;
              Properties.time := Some seconds |} |} :: more) /\
    route = {|
      Route.geojson := geometry;
      Route.distance := metres * (621371 # 1000000000);
      Route.duration := seconds / 3600;
      Route.fuel_locations :=
        match waypoints with Some wps => wps | None => [] end |}.
Proof.
  unfold TripSimulator.get_route.
  set (wl := match waypoints with
             | Some ((_ :: _) as wps) => fold_left _ wps _
             | _ => _
             end).
  assert (Hwl : wl = start_coords
                     :: match waypoints with Some wps => wps | None => [] end
                     ++ [end_coords]).
  { subst wl. destruct waypoints as [[|w wps]|]; try reflexivity.
    apply (waypoints_in_order (w :: wps) [start_coords] end_coords). }
  rewrite Hwl. unfold_monad.
  destruct (routing_api env tr _ _) as [detail|message|[|feature more]];
    cbn; try (split; [discriminate | intros (? & ? & ? & ? & ? & ?); discriminate]).
  destruct feature as [[geometry|] [[[distance|] [time|]]|]]; cbn;
    try (split; [discriminate | intros (? & ? & ? & ? & ? & ?); discriminate]).
  split.
  - intros H. injection H as <-. eexists _, _, _, _. split; reflexivity.
  - intros (g & m & s & more' & H & ->). now injection H as <- <- <- _.
Qed.

Lemma geocode_trace self address env tr :
  snd (TripSimulator.geocode self address env tr)
    = tr ++ [GeocodeSearch address (TripSimulator.geoapify_token self)].
Proof.
  unfold TripSimulator.geocode. unfold_monad.
  destruct (geocode_api env tr address (TripSimulator.geoapify_token self))
    as [detail|[|[[|lon' [|lat' rest']]|] more']]; reflexivity.
Qed.

(** ** The orchestrator's requests and failures *)

(** The requests [simulate] sends and how it ends, in one statement the
    theorems below read off. *)
Lemma simulate_cases self a b c env tr :
  let token := TripSimulator.geoapify_token self in
  let outcome := TripSimulator.simulate self a b c env tr in
  (TripSimulator.remaining_cycle self < 10 /\
   outcome = (inl (ValueError InsufficientCycleHours), tr)) \/
  (10 <= TripSimulator.remaining_cycle self /\
   exists cur pick drop sent rest,
     snd outcome = tr ++ sent /\
     five_requests token a b c cur pick drop = sent ++ rest /\
     ((exists r, fst outcome = inr r /\ rest = []) \/
      (exists cause, fst outcome = inl (ValueError (SimulationFailed cause))
                     /\ sent <> []))).
Proof.
  cbv zeta. unfold TripSimulator.simulate.
  destruct (Z.ltb_spec (TripSimulator.remaining_cycle self) 10) as [Hlt|Hge];
    [left; split; [exact Hlt | reflexivity]|].
  right. split; [exact Hge|].
  unfold try_except, mbind, M_bind.
  next_call (geocode_trace self a env tr) r1 t1.
  destruct r1 as [e|cur].
  { exists (0, 0)%Q, (0, 0)%Q, (0, 0)%Q. eexists [_], _.
    split; [reflexivity|]. split; [reflexivity|]. right. eexists.
    split; [reflexivity | discriminate]. }
  next_call (geocode_trace self b env
               (tr ++ [GeocodeSearch a (TripSimulator.geoapify_token self)]))
            r2 t2.
  destruct r2 as [e|pick].
  { exists cur, (0, 0)%Q, (0, 0)%Q. eexists [_; _], _.
    split; [cbn; rewrite <- app_assoc; reflexivity|].
    split; [reflexivity|]. right. eexists.
    split; [reflexivity | discriminate]. }
  match goal with
  | |- context [TripSimulator.geocode self c env ?t] =>
      next_call (geocode_trace self c env t) r3 t3
  end.
  destruct r3 as [e|drop].
  { exists cur, pick, (0, 0)%Q. eexists [_; _; _], _.
    split; [cbn; rewrite <- !app_assoc; reflexivity|].
    split; [reflexivity|]. right. eexists.
    split; [reflexivity | discriminate]. }
  match goal with
  | |- context [TripSimulator.get_route self cur pick None env ?t] =>
      next_call (get_route_trace self cur pick None env t) r4 t4
  end.
  destruct r4 as [e|leg1].
  { exists cur, pick, drop. eexists [_; _; _; _], _.
    split; [cbn; rewrite <- !app_assoc; reflexivity|].
    split; [reflexivity|]. right. eexists.
    split; [reflexivity | discriminate]. }
  match goal with
  | |- context [TripSimulator.get_route self pick drop None env ?t] =>
      next_call (get_route_trace self pick drop None env t) r5 t5
  end.
  exists cur, pick, drop. eexists [_; _; _; _; _], [].
  destruct r5 as [e|leg2].
  { split; [cbn; rewrite <- !app_assoc; reflexivity|].
    split; [reflexivity|]. right. eexists.
    split; [reflexivity | discriminate]. }
  match goal with
  | |- context [TripSimulator.simulate_trip_timeline ?s ?h ?d ?n ?e ?t] =>
      destruct (timeline_returns s h d n e t) as (events & log & Et & _);
      rewrite Et
  end.
  split; [cbn; rewrite <- !app_assoc; reflexivity|].
  split; [reflexivity|]. left. eexists. split; reflexivity.
Qed.

Lemma outcome_eq {A B} (p : A * B) x y : fst p = x -> snd p = y -> p = (x, y).
Proof. destruct p. cbn. congruence. Qed.

(** Past the cycle check [simulate] calls the providers in a fixed order,
    geocoding the current, pickup and dropoff addresses and then routing
    current to pickup and pickup to dropoff with the coordinates the
    geocoder returned, each request carrying the simulator's token.  It
    stops at the first call that fails, raising "Simulation failed" around
    that call's exception with exactly the requests up to that call sent;
    when all five succeed it returns a result with exactly the five
    sent. *)
Theorem simulate_requests_in_order self a b c env tr :
  10 <= TripSimulator.remaining_cycle self ->
  let token := TripSimulator.geoapify_token self in
  let outcome := TripSimulator.simulate self a b c env tr in
  let failed e := inl (ValueError (SimulationFailed e)) in
  let t1 := tr ++ [GeocodeSearch a token] in
  let t2 := t1 ++ [GeocodeSearch b token] in
  let t3 := t2 ++ [GeocodeSearch c token] in
  (forall e,
     fst (TripSimulator.geocode self a env tr) = inl e ->
     outcome = (failed e, t1)) /\
  (forall cur e,
     fst (TripSimulator.geocode self a env tr) = inr cur ->
     fst (TripSimulator.geocode self b env t1) = inl e ->
     outcome = (failed e, t2)) /\
  (forall cur pick e,
     fst (TripSimulator.geocode self a env tr) = inr cur ->
     fst (TripSimulator.geocode self b env t1) = inr pick ->
     fst (TripSimulator.geocode self c env t2) = inl e ->
     outcome = (failed e, t3)) /\
  (forall cur pick drop,
     fst (TripSimulator.geocode self a env tr) = inr cur ->
     fst (TripSimulator.geocode self b env t1) = inr pick ->
     fst (TripSimulator.geocode self c env t2) = inr drop ->
     let t4 := t3 ++ [Routing [cur; pick] token] in
     let t5 := t4 ++ [Routing [pick; drop] token] in
     (forall e,
        fst (TripSimulator.get_route self cur pick None env t3) = inl e ->
        outcome = (failed e, t4)) /\
     (forall leg1 e,
        fst (TripSimulator.get_route self cur pick None env t3) = inr leg1 ->
        fst (TripSimulator.get_route self pick drop None env t4) = inl e ->
        outcome = (failed e, t5)) /\
     (forall leg1 leg2,
        fst (TripSimulator.get_route self cur pick None env t3) = inr leg1 ->
        fst (TripSimulator.get_route self pick drop None env t4) = inr leg2 ->
        exists r,
          outcome = (inr r, t5) /\
          t5 = tr ++ five_requests token a b c cur pick drop /\
          Result.route_geojson r = Route.geojson leg2)).
Proof.
  intros Hge token outcome failed t1 t2 t3.
  assert (G : forall x t r,
            fst (TripSimulator.geocode self x env t) = r ->
            TripSimulator.geocode self x env t
              = (r, t ++ [GeocodeSearch x token])).
  { intros x t r H. apply outcome_eq; [exact H | apply geocode_trace]. }
  assert (R : forall p q t r,
            fst (TripSimulator.get_route self p q None env t) = r ->
            TripSimulator.get_route self p q None env t
              = (r, t ++ [Routing [p; q] token])).
  { intros p q t r H. apply outcome_eq; [exact H | apply get_route_trace]. }
  subst outcome failed t3 t2 t1. unfold TripSimulator.simulate.
  destruct (Z.ltb_spec (TripSimulator.remaining_cycle self) 10); [lia|].
  unfold try_except, mbind, M_bind.
  split; [|split; [|split; [|intros cur pick drop Ha Hb Hc;
                             split; [|split]]]].
  - intros e Ha. now rewrite (G _ _ _ Ha).
  - intros cur e Ha Hb. now rewrite (G _ _ _ Ha), (G _ _ _ Hb).
  - intros cur pick e Ha Hb Hc.
    now rewrite (G _ _ _ Ha), (G _ _ _ Hb), (G _ _ _ Hc).
  - intros e H4.
    now rewrite (G _ _ _ Ha), (G _ _ _ Hb), (G _ _ _ Hc), (R _ _ _ _ H4).
  - intros leg1 e H4 H5.
    now rewrite (G _ _ _ Ha), (G _ _ _ Hb), (G _ _ _ Hc), (R _ _ _ _ H4),
      (R _ _ _ _ H5).
  - intros leg1 leg2 H4 H5.
    rewrite (G _ _ _ Ha), (G _ _ _ Hb), (G _ _ _ Hc), (R _ _ _ _ H4),
      (R _ _ _ _ H5).
    match goal with
    | |- context [TripSimulator.simulate_trip_timeline ?s ?h ?d ?n ?e ?t] =>
        destruct (timeline_returns s h d n e t) as (events & log & Et & _);
        rewrite Et
    end.
    eexists. split; [reflexivity|]. split; [|reflexivity].
    unfold five_requests.
    rewrite <- !app_assoc. reflexivity.
Qed.

Lemma simulate_requests_in_order_witness :
  10 <= TripSimulator.remaining_cycle (sample_sim 0) /\
  fst (TripSimulator.geocode (sample_sim 0) (JString "Denver") sample_env [])
    = inr (40, -105)%Q /\
  fst (TripSimulator.geocode (sample_sim 0) (JString "Nowhere") sample_env
         ([] ++ [GeocodeSearch (JString "Denver") (JString "secret")]))
    = inl (ValueError (NoResultsFound (JString "Nowhere"))) /\
  TripSimulator.simulate (sample_sim 0) (JString "Denver") (JString "Nowhere")
    (JString "Chicago") sample_env []
    = (inl (ValueError (SimulationFailed
              (ValueError (NoResultsFound (JString "Nowhere"))))),
       ([] ++ [GeocodeSearch (JString "Denver") (JString "secret")])
       ++ [GeocodeSearch (JString "Nowhere") (JString "secret")]).
Proof.
  split; [discriminate|]. split; [reflexivity|]. split; [reflexivity|].
  apply (proj1 (proj2 (simulate_requests_in_order (sample_sim 0)
                         (JString "Denver") (JString "Nowhere")
                         (JString "Chicago") sample_env []
                         ltac:(discriminate)))
           (40, -105)%Q); reflexivity.
Defined.

(** Every exception [simulate] raises is a [ValueError]: the refusal,
    raised before anything is sent, or "Simulation failed" around whatever
    a provider call raised, after at least one request. *)
Theorem simulate_raises_only_value_errors self a b c env tr e :
  fst (TripSimulator.simulate self a b c env tr) = inl e ->
  (e = ValueError InsufficientCycleHours /\
   snd (TripSimulator.simulate self a b c env tr) = tr) \/
  (exists cause,
     e = ValueError (SimulationFailed cause) /\
     snd (TripSimulator.simulate self a b c env tr) <> tr).
Proof.
  intros He.
  destruct (simulate_cases self a b c env tr) as [[_ H]|(_ & H)].
  - left. rewrite H in *. cbn in *. split; congruence.
  - destruct H as (cur & pick & drop & sent & rest & Hs & _ & Hcase).
    destruct Hcase as [(r' & Hr & _)|(cause & Hc & Hne)]; [congruence|].
    right. exists cause. split; [congruence|].
    rewrite Hs. intros Heq. apply Hne.
    destruct sent; [reflexivity|].
    apply (f_equal (@length _)) in Heq. rewrite length_app in Heq.
    cbn in Heq. lia.
Qed.

Lemma simulate_raises_only_value_errors_witness :
  let outcome :=
    TripSimulator.simulate (sample_sim 0) (JString "Nowhere")
      (JString "Omaha") (JString "Chicago") sample_env [] in
  let e := ValueError (SimulationFailed
             (ValueError (NoResultsFound (JString "Nowhere")))) in
  fst outcome = inl e /\
  ((e = ValueError InsufficientCycleHours /\ snd outcome = []) \/
   (exists cause,
      e = ValueError (SimulationFailed cause) /\ snd outcome <> [])).
Proof.
  cbv zeta. split; [reflexivity|].
  apply (simulate_raises_only_value_errors (sample_sim 0) (JString "Nowhere")
           (JString "Omaha") (JString "Chicago") sample_env []).
  reflexivity.
Defined.

Lemma daily_log_duty self h d n env tr events log :
  TripSimulator.pickup_time self = 1 ->
  TripSimulator.dropoff_time self = 1 ->
  TripSimulator.simulate_trip_timeline self h d n env tr
    = (inr (events, [log]), tr) ->
  (DailyLog.total_on_duty log == DailyLog.total_driving log + 2)%Q.
Proof.
  intros Hp Hd Et. destruct (Py.ltb 2 h) eqn:E.
  - rewrite (timeline_long self h d n env tr Hp Hd E) in Et.
    injection Et as _ <-. cbn. lra.
  - rewrite (timeline_short self h d n env tr Hp Hd E) in Et.
    injection Et as _ <-. cbn. lra.
Qed.

(** The shape of a result: one daily log; three events, or four when more
    than two driving hours were logged; as many fuel locations as the
    fuel-stop count, which is never negative. *)
Theorem result_shape tok u env0 tr0 self tr0' a b c env tr r tr' :
  TripSimulator.init tok u env0 tr0 = (inr self, tr0') ->
  TripSimulator.simulate self a b c env tr = (inr r, tr') ->
  exists log,
    Result.daily_logs r = [log] /\
    length (Result.events r)
      = (if Qlt_le_dec 2 (DailyLog.total_driving log) then 4 else 3)%nat /\
    length (DailyLog.entries log) = length (Result.events r) /\
    0 <= Result.fuel_stops r /\
    length (Result.fuel_locations r) = Z.to_nat (Result.fuel_stops r) /\
    Result.status r = "success".
Proof.
  intros Hinit Hsim.
  destruct (init_inv _ _ _ _ _ _ Hinit) as (_ & _ & Hp & Hd & _).
  destruct (simulate_inv _ _ _ _ _ _ _ _ Hsim)
    as (_ & cur & pick & drop & leg1 & leg2 & tr1 & tr2 & tr3 & tr4
        & _ & _ & _ & _ & _ & events & log & Et & Hlog & ->).
  exists log. cbn [Result.daily_logs Result.events Result.fuel_stops
                   Result.fuel_locations Result.status].
  split; [reflexivity|]. rewrite Hlog, fuel_locations_length.
  set (h := (Route.duration leg1 + Route.duration leg2)%Q) in *.
  set (d := (Route.distance leg1 + Route.distance leg2)%Q) in *.
  assert (Hn : 0 <= TripSimulator.calculate_fuel_stops self d).
  { unfold TripSimulator.calculate_fuel_stops, Py.ceil.
    destruct (Py.leb d 1000) eqn:E; [lia|]. apply leb_false in E.
    pose proof (Qle_ceiling (d / 1000)) as Hc.
    pose proof (thousandth d) as Hdiv.
    assert (H1 : (inject_Z 0 < inject_Z (Qceiling (d / 1000)))%Q).
    { change (inject_Z 0) with 0%Q.
      set (x := (d / 1000)%Q) in *. clearbody x. lra. }
    rewrite <- Zlt_Qlt in H1. lia. }
  destruct (Py.ltb 2 h) eqn:E.
  - rewrite (timeline_long self h d _ env tr' Hp Hd E) in Et.
    injection Et as <- <-. apply ltb_true in E.
    destruct (Qlt_le_dec 2 h); [|lra]. repeat split; trivial.
  - rewrite (timeline_short self h d _ env tr' Hp Hd E) in Et.
    injection Et as <- <-. apply ltb_false in E.
    destruct (Qlt_le_dec 2 h); [lra|]. repeat split; trivial.
Qed.

Lemma result_shape_witness :
  TripSimulator.init JNull 0 sample_env [] = (inr (sample_sim 0), []) /\
  exists r tr',
    TripSimulator.simulate (sample_sim 0) (JString "Denver") (JString "Omaha")
      (JString "Chicago") sample_env [] = (inr r, tr') /\
    exists log,
      Result.daily_logs r = [log] /\
      length (Result.events r)
        = (if Qlt_le_dec 2 (DailyLog.total_driving log) then 4 else 3)%nat /\
      length (DailyLog.entries log) = length (Result.events r) /\
      0 <= Result.fuel_stops r /\
      length (Result.fuel_locations r) = Z.to_nat (Result.fuel_stops r) /\
      Result.status r = "success".
Proof.
  split; [reflexivity|].
  eexists _, _. split; [vm_compute; reflexivity|].
  eapply (result_shape JNull 0 sample_env [] (sample_sim 0) []
            (JString "Denver") (JString "Omaha") (JString "Chicago")
            sample_env []); [reflexivity|].
  vm_compute; reflexivity.
Defined.

(** The rounded figures of a result stay within 0.05 of what they round:
    the reported driving hours of the logged driving hours, and the
    remaining cycle hours of the cycle hours before the trip minus the
    logged on-duty time and half an hour per fuel stop. *)
Theorem result_figures_within_rounding
    tok u env0 tr0 self tr0' a b c env tr r tr' :
  TripSimulator.init tok u env0 tr0 = (inr self, tr0') ->
  TripSimulator.simulate self a b c env tr = (inr r, tr') ->
  exists log,
    Result.daily_logs r = [log] /\
    (DailyLog.total_driving log - (1 # 20)
       <= Result.total_driving_hours r
       <= DailyLog.total_driving log + (1 # 20))%Q /\
    let exact := (70 - inject_Z u - DailyLog.total_on_duty log
                  - inject_Z (Result.fuel_stops r) * (1 # 2))%Q in
    (exact - (1 # 20) <= Result.remaining_cycle_hours r
       <= exact + (1 # 20))%Q.
Proof.
  intros Hinit Hsim.
  destruct (init_inv _ _ _ _ _ _ Hinit) as (_ & Hrem & Hp & Hd & _).
  destruct (remaining_after_simulation _ _ _ _ _ _ _ _ _ _ _ _ _ Hinit Hsim)
    as (log & Hlogs & Htd & Hrch).
  destruct (simulate_inv _ _ _ _ _ _ _ _ Hsim)
    as (_ & cur & pick & drop & leg1 & leg2 & tr1 & tr2 & tr3 & tr4
        & _ & _ & _ & _ & _ & events & log' & Et & Hlog & Hr).
  assert (Hsame : log' = log).
  { rewrite Hr in Hlogs. cbn in Hlogs. congruence. }
  subst log'.
  assert (Hduty : (DailyLog.total_on_duty log
                   == DailyLog.total_driving log + 2)%Q).
  { exact (daily_log_duty self _ _ _ env tr' events log Hp Hd Et). }
  exists log. split; [exact Hlogs|]. split.
  - rewrite Htd. apply round1_near.
  - cbv zeta. rewrite Hrch, Hrem.
    unfold Z.sub. rewrite inject_Z_plus, inject_Z_opp.
    change (inject_Z 70) with 70%Q.
    match goal with
    | |- (_ <= Py.round ?x 1 <= _)%Q => pose proof (round1_near x) as Hr1
    end.
    set (rr := Py.round _ 1) in *. clearbody rr. lra.
Qed.

Lemma result_figures_within_rounding_witness :
  TripSimulator.init JNull 20 sample_env [] = (inr (sample_sim 20), []) /\
  exists r tr',
    TripSimulator.simulate (sample_sim 20) (JString "Denver")
      (JString "Omaha") (JString "Chicago") sample_env [] = (inr r, tr') /\
    exists log,
      Result.daily_logs r = [log] /\
      (DailyLog.total_driving log - (1 # 20)
         <= Result.total_driving_hours r
         <= DailyLog.total_driving log + (1 # 20))%Q /\
      let exact := (70 - inject_Z 20 - DailyLog.total_on_duty log
                    - inject_Z (Result.fuel_stops r) * (1 # 2))%Q in
      (exact - (1 # 20) <= Result.remaining_cycle_hours r
         <= exact + (1 # 20))%Q.
Proof.
  split; [reflexivity|].
  eexists _, _. split; [vm_compute; reflexivity|].
  eapply (result_figures_within_rounding JNull 20 sample_env []
            (sample_sim 20) [] (JString "Denver") (JString "Omaha")
            (JString "Chicago") sample_env []); [reflexivity|].
  vm_compute; reflexivity.
Defined.

(** ** The timeline's clock *)

(** The first event starts at the clock reading, every other event starts
    when the one before it ends, and the daily log holds one entry per
    event with the same duration and start, under status "D" for a drive
    and "ON" for pickup and dropoff. *)
Theorem timeline_is_contiguous tok u env0 tr0 self tr0' h d n env tr :
  TripSimulator.init tok u env0 tr0 = (inr self, tr0') ->
  exists events log,
    TripSimulator.simulate_trip_timeline self h d n env tr
      = (inr (events, [log]), tr) /\
    (exists first rest,
       events = first :: rest /\ Event.start first = datetime_now env) /\
    contiguous events /\
    map (fun e => (status_of (Event.type e), Event.hours e, Event.start e))
        events
      = map (fun l => (LogEntry.status l, LogEntry.hours l,
                       LogEntry.start_time l))
            (DailyLog.entries log).
Proof.
  intros Hinit.
  destruct (init_inv _ _ _ _ _ _ Hinit) as (_ & _ & Hp & Hd & _).
  destruct (Py.ltb 2 h) eqn:E.
  - eexists _, _. split; [apply (timeline_long self h d n env tr Hp Hd E)|].
    split; [eexists _, _; split; reflexivity|].
    split; [cbn; repeat split | reflexivity].
  - eexists _, _. split; [apply (timeline_short self h d n env tr Hp Hd E)|].
    split; [eexists _, _; split; reflexivity|].
    split; [cbn; repeat split | reflexivity].
Qed.

Lemma timeline_is_contiguous_witness :
  TripSimulator.init JNull 0 sample_env [] = (inr (sample_sim 0), []) /\
  exists events log,
    TripSimulator.simulate_trip_timeline (sample_sim 0) (9 # 2) 250 0
                                         sample_env []
      = (inr (events, [log]), []) /\
    (exists first rest,
       events = first :: rest /\ Event.start first = datetime_now sample_env) /\
    contiguous events /\
    map (fun e => (status_of (Event.type e), Event.hours e, Event.start e))
        events
      = map (fun l => (LogEntry.status l, LogEntry.hours l,
                       LogEntry.start_time l))
            (DailyLog.entries log).
Proof.
  split; [reflexivity|].
  apply (timeline_is_contiguous JNull 0 sample_env [] (sample_sim 0) []
           (9 # 2) 250 0 sample_env []).
  reflexivity.
Defined.

Lemma Qfloor_unique y f :
  (inject_Z f <= y < inject_Z (f + 1))%Q -> Qfloor y = f.
Proof.
  intros [Hlo Hhi].
  pose proof (Qfloor_le y) as H1. pose proof (Qlt_floor y) as H2.
  assert (A : (inject_Z f < inject_Z (Qfloor y + 1))%Q) by lra.
  assert (B : (inject_Z (Qfloor y) < inject_Z (f + 1))%Q) by lra.
  rewrite <- Zlt_Qlt in A, B. lia.
Qed.

Lemma twentyfourth x : (x / 24 == x * (1 # 24))%Q.
Proof. reflexivity. Qed.

(** [x % 24] lies in [0, 24). *)
Lemma fmod_24_range x : (0 <= Py.fmod x 24 < 24)%Q.
Proof.
  unfold Py.fmod.
  pose proof (Qfloor_le (x / 24)) as Hlo.
  pose proof (Qlt_floor (x / 24)) as Hhi.
  rewrite inject_Z_plus in Hhi. change (inject_Z 1) with 1%Q in Hhi.
  pose proof (twentyfourth x) as Hdiv.
  set (f := inject_Z (Qfloor (x / 24))) in *. clearbody f.
  set (y := (x / 24)%Q) in *. clearbody y. split; lra.
Qed.

Lemma fmod_comp x y m : (x == y)%Q -> (Py.fmod x m == Py.fmod y m)%Q.
Proof.
  intros E. unfold Py.fmod.
  rewrite (Qfloor_comp (x / m) (y / m))
    by (apply Qmult_comp; [exact E | reflexivity]).
  apply Qplus_comp; [exact E | reflexivity].
Qed.

(** [x % 24] does not see whole days. *)
Lemma fmod_24_period x k : (Py.fmod (x + 24 * inject_Z k) 24 == Py.fmod x 24)%Q.
Proof.
  unfold Py.fmod.
  assert (Hf : Qfloor ((x + 24 * inject_Z k) / 24) = Qfloor (x / 24) + k).
  { apply Qfloor_unique.
    pose proof (Qfloor_le (x / 24)) as Hlo.
    pose proof (Qlt_floor (x / 24)) as Hhi.
    pose proof (twentyfourth x) as Hdiv.
    pose proof (twentyfourth (x + 24 * inject_Z k)) as Hdiv'.
    rewrite !inject_Z_plus in *. change (inject_Z 1) with 1%Q in *.
    set (f := inject_Z (Qfloor (x / 24))) in *. clearbody f.
    set (y := (x / 24)%Q) in *. clearbody y.
    set (y' := ((x + 24 * inject_Z k) / 24)%Q) in *. clearbody y'.
    split; lra. }
  rewrite Hf, inject_Z_plus. ring.
Qed.

(** The offset from the start of the day that a log entry reports is
    wrapped into one day: it lies between 0 and 24 hours, whatever the
    start time, even one before the day start or days after it. *)
Theorem elapsed_hours_range self status hours description start_time day_start :
  (0 <= LogEntry.elapsed_hours
          (TripSimulator.create_eld_log_entry self status hours description
             start_time day_start) <= 24)%Q.
Proof.
  unfold TripSimulator.create_eld_log_entry. cbn [LogEntry.elapsed_hours].
  set (e := (total_seconds (start_time - day_start) / 3600)%Q).
  change (Py.round (Py.fmod e 24) 2)
    with (Qmake (Py.round_half_even (Py.fmod e 24 * inject_Z 100)) 100).
  pose proof (fmod_24_range e) as [Hlo Hhi].
  pose proof (round_half_even_near (Py.fmod e 24 * inject_Z 100)) as [Ha Hb].
  change (inject_Z 100) with 100%Q in *.
  set (z := Py.round_half_even (Py.fmod e 24 * 100)) in *.
  assert (A : (inject_Z (-1) < inject_Z z)%Q)
    by (change (inject_Z (-1)) with (-1)%Q; lra).
  assert (B : (inject_Z z < inject_Z 2401)%Q)
    by (change (inject_Z 2401) with 2401%Q; lra).
  rewrite <- Zlt_Qlt in A, B.
  unfold Qle. cbn. lia.
Qed.

Lemma rounded_to_comp n x y r :
  (x == y)%Q -> rounded_to n x r -> rounded_to n y r.
Proof.
  intros E [Hk Hb]. split; [exact Hk|]. cbv zeta in *.
  set (half := (1 # 2 * 10 ^ Pos.of_nat n)%Q) in *. clearbody half.
  split; lra.
Qed.

(** Whole days do not show in the offset a log entry reports: an entry
    that starts any number of whole days after (or before) a given time
    reports that time's offset from the day start, wrapped into one day
    and rounded to two decimals. *)
Theorem elapsed_hours_wraps_daily
    self status hours description start_time day_start days :
  rounded_to 2
    (Py.fmod (inject_Z (start_time - day_start) / inject_Z us_per_hour) 24)
    (LogEntry.elapsed_hours
       (TripSimulator.create_eld_log_entry self status hours description
          (start_time + days * us_per_day) day_start)).
Proof.
  unfold TripSimulator.create_eld_log_entry. cbn [LogEntry.elapsed_hours].
  eapply rounded_to_comp; [|apply round2_rounded].
  assert (E : (total_seconds (start_time + days * us_per_day - day_start) / 3600
               == inject_Z (start_time - day_start) / inject_Z us_per_hour
                  + 24 * inject_Z days)%Q).
  { unfold total_seconds, us_per_day, us_per_hour.
    replace (start_time + days * 86400000000 - day_start)
      with ((start_time - day_start) + days * 86400000000) by lia.
    rewrite inject_Z_plus, inject_Z_mult.
    change (inject_Z 86400000000) with 86400000000%Q.
    change (inject_Z 3600000000) with 3600000000%Q. field. }
  apply (Qeq_trans _ _ _ (fmod_comp _ _ 24 E)). apply fmod_24_period.
Qed.

(** Eighteen seconds past midnight and the same time a day later. *)
Example elapsed_hours_a_day_apart :
  rounded_to 2 (1 # 200)
    (LogEntry.elapsed_hours
       (TripSimulator.create_eld_log_entry (sample_sim 0) "ON" 1 "Loading"
          (18000000 + 1 * us_per_day) 0)).
Proof.
  apply (rounded_to_comp 2
           (Py.fmod (inject_Z (18000000 - 0) / inject_Z us_per_hour) 24));
    [reflexivity|].
  apply (elapsed_hours_wraps_daily (sample_sim 0) "ON" 1 "Loading" 18000000 0 1).
Qed.

(** The upper bound is reached: ten seconds before midnight reads 24.0. *)
Example elapsed_hours_reads_24 :
  (LogEntry.elapsed_hours
     (TripSimulator.create_eld_log_entry (sample_sim 0) "ON" 1 "Loading"
        (86390 * 1000000) 0) == 24)%Q.
Proof. reflexivity. Qed.

(** ** More on fuel stops *)

(** A longer trip never needs fewer fuel stops. *)
Theorem fuel_stops_monotone self d1 d2 :
  (d1 <= d2)%Q ->
  TripSimulator.calculate_fuel_stops self d1
    <= TripSimulator.calculate_fuel_stops self d2.
Proof.
  intros Hle. unfold TripSimulator.calculate_fuel_stops, Py.ceil.
  destruct (Py.leb d1 1000) eqn:E1; destruct (Py.leb d2 1000) eqn:E2.
  - lia.
  - apply leb_false in E2.
    pose proof (Qle_ceiling (d2 / 1000)) as Hc.
    pose proof (thousandth d2) as Hdiv.
    assert (H1 : (inject_Z 1 < inject_Z (Qceiling (d2 / 1000)))%Q).
    { change (inject_Z 1) with 1%Q.
      set (x := (d2 / 1000)%Q) in *. clearbody x. lra. }
    rewrite <- Zlt_Qlt in H1. lia.
  - apply leb_true in E2. apply leb_false in E1. lra.
  - assert (Qceiling (d1 / 1000) <= Qceiling (d2 / 1000)); [|lia].
    apply Qceiling_resp_le.
    pose proof (thousandth d1). pose proof (thousandth d2).
    set (x1 := (d1 / 1000)%Q) in *. set (x2 := (d2 / 1000)%Q) in *.
    clearbody x1 x2. lra.
Qed.

Lemma fuel_stops_monotone_witness :
  (1000 <= 3000 + (1 # 2))%Q /\
  TripSimulator.calculate_fuel_stops (sample_sim 0) 1000
    <= TripSimulator.calculate_fuel_stops (sample_sim 0) (3000 + (1 # 2)).
Proof.
  split; [discriminate|].
  apply (fuel_stops_monotone (sample_sim 0) 1000 (3000 + (1 # 2))).
  discriminate.
Defined.

(** Every entry of [fuel_locations] comes from one pass of the loop. *)
Lemma fuel_location_in pickup dropoff n stop :
  In stop (TripSimulator.generate_fuel_locations pickup dropoff n) ->
  exists i, 1 <= i <= n /\
    stop = TripSimulator.fuel_location pickup dropoff n (i - 1).
Proof.
  unfold TripSimulator.generate_fuel_locations, TripSimulator.range.
  destruct (Z.ltb_spec 0 n); [|intros []].
  rewrite map_map. intros Hin. apply in_map_iff in Hin.
  destruct Hin as (k & <- & Hk). apply in_seq in Hk.
  exists (Z.of_nat k + 1). split; [lia|]. f_equal. lia.
Qed.

(** The fuel stops planned for a trip of [d] miles all lie before its end:
    each is at least 1000 miles from the start and strictly less than [d]. *)
Theorem fuel_stops_before_destination self pickup dropoff d stop :
  In stop (TripSimulator.generate_fuel_locations pickup dropoff
             (TripSimulator.calculate_fuel_stops self d)) ->
  1000 <= FuelLocation.distance_from_start stop /\
  (inject_Z (FuelLocation.distance_from_start stop) < d)%Q.
Proof.
  intros Hin. apply fuel_location_in in Hin.
  destruct Hin as (i & Hi & ->).
  unfold TripSimulator.fuel_location, Py.round_int.
  cbn [FuelLocation.distance_from_start Z.leb Z.compare].
  replace (i - 1 + 1) with i by lia. split; [lia|].
  revert Hi. unfold TripSimulator.calculate_fuel_stops, Py.ceil.
  destruct (Py.leb d 1000) eqn:E; [lia|]. intros Hi.
  pose proof (Qceiling_lt (d / 1000)) as Hc.
  pose proof (thousandth d) as Hdiv.
  assert (Hi' : (inject_Z i <= inject_Z (Qceiling (d / 1000) - 1))%Q)
    by (rewrite <- Zle_Qle; lia).
  rewrite inject_Z_mult. change (inject_Z 1000) with 1000%Q.
  set (c := inject_Z (Qceiling (d / 1000) - 1)) in *. clearbody c.
  set (x := (d / 1000)%Q) in *. clearbody x. lra.
Qed.

Lemma fuel_stops_before_destination_witness :
  let stop := {| FuelLocation.lat := 41666667 # 1000000;
                 FuelLocation.lng := -(91333333 # 1000000);
                 FuelLocation.name := "Fuel Stop 2";
                 FuelLocation.distance_from_start := 2000 |} in
  In stop (TripSimulator.generate_fuel_locations (41, -96)%Q (42, -89)%Q
             (TripSimulator.calculate_fuel_stops (sample_sim 0) 2001)) /\
  1000 <= FuelLocation.distance_from_start stop /\
  (inject_Z (FuelLocation.distance_from_start stop) < 2001)%Q.
Proof.
  cbv zeta.
  assert (Hin : In {| FuelLocation.lat := 41666667 # 1000000;
                      FuelLocation.lng := -(91333333 # 1000000);
                      FuelLocation.name := "Fuel Stop 2";
                      FuelLocation.distance_from_start := 2000 |}
                   (TripSimulator.generate_fuel_locations (41, -96)%Q (42, -89)%Q
                      (TripSimulator.calculate_fuel_stops (sample_sim 0) 2001))).
  { right. left. reflexivity. }
  split; [exact Hin|].
  exact (fuel_stops_before_destination (sample_sim 0) (41, -96)%Q (42, -89)%Q
           2001 _ Hin).
Defined.

Lemma between_closed p q f :
  (0 < f < 1)%Q -> (p <= q)%Q -> (p <= p + f * (q - p) <= q)%Q.
Proof.
  intros [Hf0 Hf1] Hpq.
  assert (0 <= f * (q - p))%Q by (apply Qmult_le_0_compat; lra).
  assert (0 <= (1 - f) * (q - p))%Q by (apply Qmult_le_0_compat; lra).
  split; lra.
Qed.

(** After rounding, a fuel stop still lies between pickup and dropoff as
    they round to 6 decimals, ends included, on each axis. *)
Theorem fuel_stop_within_rounded_ends pickup dropoff n stop :
  In stop (TripSimulator.generate_fuel_locations pickup dropoff n) ->
  (Py.round (Qmin (fst pickup) (fst dropoff)) 6
     <= FuelLocation.lat stop
     <= Py.round (Qmax (fst pickup) (fst dropoff)) 6)%Q /\
  (Py.round (Qmin (snd pickup) (snd dropoff)) 6
     <= FuelLocation.lng stop
     <= Py.round (Qmax (snd pickup) (snd dropoff)) 6)%Q.
Proof.
  intros Hin. apply fuel_location_in in Hin.
  destruct Hin as (i & Hi & ->).
  unfold TripSimulator.fuel_location.
  cbn [FuelLocation.lat FuelLocation.lng].
  replace (i - 1 + 1) with i by lia.
  pose proof (fraction_bounds i n Hi) as Hf.
  set (f := (inject_Z i / inject_Z (n + 1))%Q) in *. clearbody f.
  assert (Haxis : forall p q,
            (Py.round (Qmin p q) 6 <= Py.round (p + f * (q - p)) 6
               <= Py.round (Qmax p q) 6)%Q).
  { intros p q. destruct (Qlt_le_dec q p) as [Hlt|Hle].
    - assert (Hq : (q <= q + (1 - f) * (p - q) <= p)%Q)
        by (apply between_closed; lra).
      pose proof (Q.min_spec p q) as [[? Hm]|[? Hm]];
        pose proof (Q.max_spec p q) as [[? HM]|[? HM]]; try lra.
      split; apply round_mono; lra.
    - pose proof (between_closed p q f Hf Hle) as Hq.
      pose proof (Q.min_spec p q) as [[? Hm]|[? Hm]];
        pose proof (Q.max_spec p q) as [[? HM]|[? HM]];
        split; apply round_mono; lra. }
  split; apply Haxis.
Qed.

Lemma fuel_stop_within_rounded_ends_witness :
  let pickup := (41%Q, (-96)%Q) in
  let dropoff := ((410000004 # 10000000)%Q, (-96)%Q) in
  let stop := {| FuelLocation.lat := 41000000 # 1000000;
                 FuelLocation.lng := -96000000 # 1000000;
                 FuelLocation.name := "Fuel Stop 1";
                 FuelLocation.distance_from_start := 1000 |} in
  In stop (TripSimulator.generate_fuel_locations pickup dropoff 1) /\
  (Py.round (Qmin (fst pickup) (fst dropoff)) 6
     <= FuelLocation.lat stop
     <= Py.round (Qmax (fst pickup) (fst dropoff)) 6)%Q /\
  (Py.round (Qmin (snd pickup) (snd dropoff)) 6
     <= FuelLocation.lng stop
     <= Py.round (Qmax (snd pickup) (snd dropoff)) 6)%Q.
Proof.
  cbv zeta.
  assert (Hin : In {| FuelLocation.lat := 41000000 # 1000000;
                      FuelLocation.lng := -96000000 # 1000000;
                      FuelLocation.name := "Fuel Stop 1";
                      FuelLocation.distance_from_start := 1000 |}
                   (TripSimulator.generate_fuel_locations (41%Q, (-96)%Q)
                      ((410000004 # 10000000)%Q, (-96)%Q) 1)).
  { left. reflexivity. }
  split; [exact Hin|].
  exact (fuel_stop_within_rounded_ends (41%Q, (-96)%Q)
           ((410000004 # 10000000)%Q, (-96)%Q) 1 _ Hin).
Defined.

(** ** The handler's answers *)

(** The parsing block returns an integer, or lets the [OverflowError] of an
    infinite float through. *)
Lemma parse_cases (data : gmap string json) env tr :
  (exists u, Views.parse_current_cycle_used data env tr = (inr u, tr)) \/
  (Views.parse_current_cycle_used data env tr = (inl OverflowError, tr) /\
   exists negative,
     data !! "current_cycle_used" = Some (JFloat (Infinity negative))).
Proof.
  unfold Views.parse_current_cycle_used. unfold_monad.
  destruct (data !! "current_cycle_used") as [v|]; cbn; [|left; eauto].
  destruct v as [|b|n|[q|negative|]|s|items|members]; cbn;
    try (left; eauto; fail).
  - right. eauto.
  - destruct (int_str env s); cbn; left; eauto.
Qed.

Lemma init_cases tok u env tr :
  (exists self,
     TripSimulator.init tok u env tr = (inr self, tr) /\
     TripSimulator.geoapify_token self
       = (if truthy tok then tok else TripSimulator.config_token env) /\
     TripSimulator.remaining_cycle self = 70 - u) \/
  (TripSimulator.init tok u env tr = (inl (ValueError TokenRequired), tr) /\
   truthy tok = false /\ truthy (TripSimulator.config_token env) = false).
Proof.
  unfold TripSimulator.init. unfold_monad.
  destruct (truthy tok) eqn:Et; cbn.
  - rewrite Et. cbn. left. eexists. repeat split.
  - destruct (truthy (TripSimulator.config_token env)) eqn:Ec; cbn.
    + left. eexists. repeat split.
    + right. repeat split.
Qed.

Lemma first_missing_none (data : gmap string json) :
  Views.first_missing data = None ->
  exists a b c,
    data !! "current_location" = Some a /\
    data !! "pickup_location" = Some b /\
    data !! "dropoff_location" = Some c.
Proof.
  unfold Views.first_missing, Views.required_fields. cbn [find].
  repeat case_bool_decide; try discriminate. intros _.
  destruct (data !! "current_location") as [a|]; [|congruence].
  destruct (data !! "pickup_location") as [b|]; [|congruence].
  destruct (data !! "dropoff_location") as [c|]; [|congruence].
  eexists _, _, _. repeat split.
Qed.

Lemma all_present_first_missing (data : gmap string json) :
  (forall field, In field Views.required_fields -> data !! field <> None) ->
  Views.first_missing data = None.
Proof.
  intros H. unfold Views.first_missing, Views.required_fields in *.
  cbn [find]. repeat case_bool_decide; try reflexivity;
    exfalso; eapply H; try eassumption; cbn; auto.
Qed.

(** Past its validation, the handler answers with what [simulate] did. *)
Lemma handler_after_validation (data : gmap string json) env tr a b c u self :
  data !! "current_location" = Some a ->
  data !! "pickup_location" = Some b ->
  data !! "dropoff_location" = Some c ->
  Views.parse_current_cycle_used data env tr = (inr u, tr) ->
  TripSimulator.init (default JNull (data !! "geoapify_token")) u env tr
    = (inr self, tr) ->
  Views.simulate_trip data env tr
    = match TripSimulator.simulate self a b c env tr with
      | (inr r, t) => (inr (Views.Ok r), t)
      | (inl (ValueError msg), t) => (inr (Views.BadRequest msg), t)
      | (inl e, t) => (inr (Views.InternalServerError e), t)
      end.
Proof.
  intros Ha Hb Hc Hparse Hinit.
  unfold Views.simulate_trip, Views.simulate_trip_body, try_except.
  rewrite all_present_first_missing.
  2:{ intros field [<-|[<-|[<-|[]]]]; congruence. }
  unfold mbind at 1. unfold M_bind at 1. rewrite Hparse.
  unfold mbind at 1. unfold M_bind at 1. rewrite Hinit.
  rewrite Ha, Hb, Hc.
  cbv beta iota delta [mbind M_bind mret M_ret getkey].
  destruct (TripSimulator.simulate self a b c env tr) as [[e|r] t];
    [destruct e|]; reflexivity.
Qed.

Lemma simulate_error_is_value_error self a b c env tr e t :
  TripSimulator.simulate self a b c env tr = (inl e, t) ->
  exists msg, e = ValueError msg.
Proof.
  intros H.
  destruct (simulate_cases self a b c env tr) as [[_ H']|(_ & H')].
  - rewrite H in H'. injection H' as -> _. eauto.
  - destruct H' as (? & ? & ? & ? & ? & _ & _ & [(r & Hr & _)|(cs & Hc & _)]);
      rewrite H in *; cbn in *; [discriminate|].
    injection Hc as ->. eauto.
Qed.

(** On a dict the handler always answers, with 500 exactly when the three
    fields are there and [current_cycle_used] is an infinite float. *)
Lemma dict_handler_answers (data : gmap string json) env tr :
  exists response tr',
    Views.simulate_trip data env tr = (inr response, tr') /\
    ((exists e, response = Views.InternalServerError e) <->
     tr' = tr /\
     Views.first_missing data = None /\
     exists negative,
       data !! "current_cycle_used" = Some (JFloat (Infinity negative))).
Proof.
  destruct (Views.first_missing data) as [field|] eqn:Hmiss.
  { eexists _, _. unfold Views.simulate_trip, Views.simulate_trip_body,
      try_except. rewrite Hmiss. split; [reflexivity|].
    split; [intros [e He]; discriminate | intros (_ & H & _); discriminate]. }
  destruct (first_missing_none data Hmiss) as (a & b & c & Ha & Hb & Hc).
  destruct (parse_cases data env tr) as [[u Hparse]|[Hparse Hinf]].
  2:{ eexists _, _. unfold Views.simulate_trip, Views.simulate_trip_body,
        try_except. rewrite Hmiss. unfold mbind at 1. unfold M_bind at 1.
      rewrite Hparse. split; [reflexivity|]. split; eauto. }
  assert (Hfin : ~ exists negative,
             data !! "current_cycle_used" = Some (JFloat (Infinity negative))).
  { intros [negative Hv]. rewrite (parse_present data _ env tr Hv) in Hparse.
    discriminate. }
  destruct (init_cases (default JNull (data !! "geoapify_token")) u env tr)
    as [(self & Hinit & _)|(Hinit & _)].
  2:{ eexists _, _. unfold Views.simulate_trip, Views.simulate_trip_body,
        try_except. rewrite Hmiss. unfold mbind at 1. unfold M_bind at 1.
      rewrite Hparse. unfold mbind at 1. unfold M_bind at 1. rewrite Hinit.
      split; [reflexivity|].
      split; [intros [e He]; discriminate | intros (_ & _ & H); tauto]. }
  rewrite (handler_after_validation data env tr a b c u self Ha Hb Hc Hparse
             Hinit).
  destruct (TripSimulator.simulate self a b c env tr) as [[e|r] t] eqn:Hsim.
  - destruct (simulate_error_is_value_error _ _ _ _ _ _ _ _ Hsim) as [msg ->].
    eexists _, _. split; [reflexivity|].
    split; [intros [e He]; discriminate | intros (_ & _ & H); tauto].
  - eexists _, _. split; [reflexivity|].
    split; [intros [e He]; discriminate | intros (_ & _ & H); tauto].
Qed.

(** The handler always answers: no exception leaves it.  It answers 500,
    with nothing sent, exactly in these cases: the body cannot be read or
    carries an uploaded file; the body is null, a boolean or a number; the body is an array or a
    string in which the three field names are found (the dict method
    [get] is then missing); the body is an object with the three fields
    whose [current_cycle_used] is an infinite float, on which [int()]
    overflows.  Every failure of the simulation itself is answered as a
    validation error. *)
Theorem handler_always_answers body env tr :
  exists response tr',
    Views.simulate_trip_request body env tr = (inr response, tr') /\
    ((exists e, response = Views.InternalServerError e) <->
     tr' = tr /\
     match body with
     | Views.Unreadable | Views.WithUpload => True
     | Views.Decoded (JObject members) =>
         Views.first_missing (Views.dict_of members) = None /\
         exists negative,
           Views.dict_of members !! "current_cycle_used"
             = Some (JFloat (Infinity negative))
     | Views.Decoded (JArray items) =>
         forall field, In field Views.required_fields ->
                       Views.in_list field items = true
     | Views.Decoded (JString s) =>
         forall field, In field Views.required_fields ->
                       Views.in_str field s = true
     | Views.Decoded _ => True
     end).
Proof.
  assert (Hfind : forall test : string -> bool,
            match find (fun field => negb (test field)) Views.required_fields
            with
            | Some _ => exists field, In field Views.required_fields
                                      /\ test field = false
            | None => forall field, In field Views.required_fields ->
                                    test field = true
            end).
  { intros test. unfold Views.required_fields. cbn [find].
    destruct (test "current_location") eqn:E1; cbn;
      [|exists "current_location"; cbn; auto].
    destruct (test "pickup_location") eqn:E2; cbn;
      [|exists "pickup_location"; cbn; auto].
    destruct (test "dropoff_location") eqn:E3; cbn;
      [|exists "dropoff_location"; cbn; auto].
    intros field [<-|[<-|[<-|[]]]]; assumption. }
  destruct body as [| |[|b|n|f|s|items|members]];
    cbn [Views.simulate_trip_request]; unfold_monad.
  - eexists _, _. split; [reflexivity|]. split; eauto.
  - eexists _, _. split; [reflexivity|]. split; eauto.
  - eexists _, _. split; [reflexivity|]. split; eauto.
  - eexists _, _. split; [reflexivity|]. split; eauto.
  - eexists _, _. split; [reflexivity|]. split; eauto.
  - eexists _, _. split; [reflexivity|]. split; eauto.
  - pose proof (Hfind (fun field => Views.in_str field s)) as H.
    destruct (find _ Views.required_fields) as [field|].
    + eexists _, _. split; [reflexivity|]. split.
      * intros [e He]. discriminate.
      * intros [_ Hall]. destruct H as (f' & Hin & Hf).
        rewrite (Hall f' Hin) in Hf. discriminate.
    + eexists _, _. split; [reflexivity|]. split; eauto.
  - pose proof (Hfind (fun field => Views.in_list field items)) as H.
    destruct (find _ Views.required_fields) as [field|].
    + eexists _, _. split; [reflexivity|]. split.
      * intros [e He]. discriminate.
      * intros [_ Hall]. destruct H as (f' & Hin & Hf).
        rewrite (Hall f' Hin) in Hf. discriminate.
    + eexists _, _. split; [reflexivity|]. split; eauto.
  - apply dict_handler_answers.
Qed.

(** A request lacking a required field is answered 400 with the first
    missing field, in the order current, pickup, dropoff, before the token
    or the cycle hours are looked at and before anything is sent. *)
Theorem missing_field_is_reported (data : gmap string json) env tr field :
  In field Views.required_fields ->
  data !! field = None ->
  exists before reported after,
    Views.required_fields = before ++ reported :: after /\
    Forall (fun f => data !! f <> None) before /\
    data !! reported = None /\
    Views.simulate_trip data env tr
      = (inr (Views.BadRequest (MissingRequiredField reported)), tr).
Proof.
  intros Hin Hnone.
  unfold Views.simulate_trip, Views.simulate_trip_body, try_except,
    Views.first_missing, Views.required_fields in *. cbn [find].
  destruct (data !! "current_location") as [a|] eqn:Ha.
  2:{ exists [], "current_location". eexists.
      split; [reflexivity|]. split; [constructor|]. split; [exact Ha|].
      reflexivity. }
  destruct (data !! "pickup_location") as [b|] eqn:Hb.
  2:{ exists ["current_location"], "pickup_location". eexists.
      split; [reflexivity|]. split; [repeat constructor; congruence|].
      split; [exact Hb | reflexivity]. }
  destruct (data !! "dropoff_location") as [c|] eqn:Hc.
  2:{ exists ["current_location"; "pickup_location"], "dropoff_location".
      eexists.
      split; [reflexivity|]. split; [repeat constructor; congruence|].
      split; [exact Hc | reflexivity]. }
  destruct Hin as [<-|[<-|[<-|[]]]]; congruence.
Qed.

Lemma missing_field_is_reported_witness :
  In "dropoff_location" Views.required_fields /\
  delete "pickup_location" (delete "dropoff_location" (sample_request (JInt 99)))
    !! "dropoff_location" = None /\
  exists before reported after,
    Views.required_fields = before ++ reported :: after /\
    Forall (fun f =>
              delete "pickup_location"
                (delete "dropoff_location" (sample_request (JInt 99)))
              !! f <> None) before /\
    delete "pickup_location" (delete "dropoff_location" (sample_request (JInt 99)))
      !! reported = None /\
    Views.simulate_trip
      (delete "pickup_location"
         (delete "dropoff_location" (sample_request (JInt 99))))
      offline_env []
      = (inr (Views.BadRequest (MissingRequiredField reported)), []).
Proof.
  split; [cbn; auto|]. split; [reflexivity|].
  apply (missing_field_is_reported
           (delete "pickup_location"
              (delete "dropoff_location" (sample_request (JInt 99))))
           offline_env [] "dropoff_location"); [cbn; auto | reflexivity].
Defined.

(** With the three fields present and a usable [current_cycle_used], a
    request that brings no token (none, or an empty one) while none is
    configured is answered 400 "token required", and nothing is sent. *)
Theorem handler_requires_a_token (data : gmap string json) env tr u :
  (forall field, In field Views.required_fields -> data !! field <> None) ->
  Views.parse_current_cycle_used data env tr = (inr u, tr) ->
  truthy (default JNull (data !! "geoapify_token")) = false ->
  truthy (TripSimulator.config_token env) = false ->
  Views.simulate_trip data env tr
    = (inr (Views.BadRequest TokenRequired), tr).
Proof.
  intros Hall Hparse Htok Hconf.
  destruct (init_cases (default JNull (data !! "geoapify_token")) u env tr)
    as [(self & Hinit & Hself & _)|(Hinit & _)].
  { exfalso. destruct (init_inv _ _ _ _ _ _ Hinit) as (_ & _ & _ & _ & _ & Ht).
    rewrite Hself, Htok in Ht. congruence. }
  unfold Views.simulate_trip, Views.simulate_trip_body, try_except.
  rewrite (all_present_first_missing data Hall).
  unfold mbind at 1. unfold M_bind at 1. rewrite Hparse.
  unfold mbind at 1. unfold M_bind at 1. rewrite Hinit. reflexivity.
Qed.

Lemma handler_requires_a_token_witness :
  let data := <["geoapify_token" := JString ""]> (sample_request (JInt 5)) in
  (forall field, In field Views.required_fields -> data !! field <> None) /\
  Views.parse_current_cycle_used data offline_env [] = (inr 5, []) /\
  truthy (default JNull (data !! "geoapify_token")) = false /\
  truthy (TripSimulator.config_token offline_env) = false /\
  Views.simulate_trip data offline_env []
    = (inr (Views.BadRequest TokenRequired), []).
Proof.
  cbv zeta.
  assert (Hall : forall field, In field Views.required_fields ->
            <["geoapify_token" := JString ""]> (sample_request (JInt 5))
              !! field <> None).
  { intros field [<-|[<-|[<-|[]]]]; discriminate. }
  split; [exact Hall|]. split; [reflexivity|]. split; [reflexivity|].
  split; [reflexivity|].
  apply (handler_requires_a_token
           (<["geoapify_token" := JString ""]> (sample_request (JInt 5)))
           offline_env [] 5 Hall); reflexivity.
Defined.

(** With the three fields present and a token at hand, a
    [current_cycle_used] read as more than 60 is answered 400
    "insufficient cycle hours", and nothing is sent. *)
Theorem handler_refuses_used_cycle (data : gmap string json) env tr u :
  (forall field, In field Views.required_fields -> data !! field <> None) ->
  Views.parse_current_cycle_used data env tr = (inr u, tr) ->
  60 < u ->
  truthy (default JNull (data !! "geoapify_token"))
    || truthy (TripSimulator.config_token env) = true ->
  Views.simulate_trip data env tr
    = (inr (Views.BadRequest InsufficientCycleHours), tr).
Proof.
  intros Hall Hparse Hu Htok.
  destruct (first_missing_none data (all_present_first_missing data Hall))
    as (a & b & c & Ha & Hb & Hc).
  destruct (init_cases (default JNull (data !! "geoapify_token")) u env tr)
    as [(self & Hinit & _ & Hrem)|(_ & Ht1 & Ht2)].
  2:{ rewrite Ht1, Ht2 in Htok. discriminate. }
  rewrite (handler_after_validation data env tr a b c u self Ha Hb Hc Hparse
             Hinit).
  unfold TripSimulator.simulate.
  destruct (Z.ltb_spec (TripSimulator.remaining_cycle self) 10); [|lia].
  reflexivity.
Qed.

Lemma handler_refuses_used_cycle_witness :
  let data := sample_request (JString "61") in
  (forall field, In field Views.required_fields -> data !! field <> None) /\
  Views.parse_current_cycle_used data sample_env [] = (inr 61, []) /\
  60 < 61 /\
  truthy (default JNull (data !! "geoapify_token"))
    || truthy (TripSimulator.config_token sample_env) = true /\
  Views.simulate_trip data sample_env []
    = (inr (Views.BadRequest InsufficientCycleHours), []).
Proof.
  cbv zeta.
  assert (Hall : forall field, In field Views.required_fields ->
            sample_request (JString "61") !! field <> None).
  { intros field [<-|[<-|[<-|[]]]]; discriminate. }
  split; [exact Hall|]. split; [reflexivity|]. split; [reflexivity|].
  split; [reflexivity|].
  apply (handler_refuses_used_cycle (sample_request (JString "61"))
           sample_env [] 61 Hall); reflexivity.
Defined.

(** A 200 answer means the five requests went out for the three addresses
    of the body, in the order current, pickup, dropoff, each with the
    request's own token when it brings one and the configured token
    otherwise. *)
Theorem success_sends_five_requests (data : gmap string json) env tr r tr' :
  Views.simulate_trip data env tr = (inr (Views.Ok r), tr') ->
  exists a b c cur pick drop,
    data !! "current_location" = Some a /\
    data !! "pickup_location" = Some b /\
    data !! "dropoff_location" = Some c /\
    let sent := default JNull (data !! "geoapify_token") in
    let token := if truthy sent then sent else TripSimulator.config_token env in
    tr' = tr ++ five_requests token a b c cur pick drop.
Proof.
  intros H.
  destruct (Views.first_missing data) as [field|] eqn:Hmiss.
  { unfold Views.simulate_trip, Views.simulate_trip_body, try_except in H.
    rewrite Hmiss in H. discriminate. }
  destruct (first_missing_none data Hmiss) as (a & b & c & Ha & Hb & Hc).
  destruct (parse_cases data env tr) as [[u Hparse]|[Hparse Hinf]].
  2:{ unfold Views.simulate_trip, Views.simulate_trip_body, try_except in H.
      rewrite Hmiss in H. unfold mbind at 1 in H. unfold M_bind at 1 in H.
      rewrite Hparse in H. discriminate. }
  destruct (init_cases (default JNull (data !! "geoapify_token")) u env tr)
    as [(self & Hinit & Htok & _)|(Hinit & _)].
  2:{ unfold Views.simulate_trip, Views.simulate_trip_body, try_except in H.
      rewrite Hmiss in H. unfold mbind at 1 in H. unfold M_bind at 1 in H.
      rewrite Hparse in H. unfold mbind at 1 in H. unfold M_bind at 1 in H.
      rewrite Hinit in H. discriminate. }
  rewrite (handler_after_validation data env tr a b c u self Ha Hb Hc Hparse
             Hinit) in H.
  destruct (simulate_cases self a b c env tr) as [[_ Hs]|(_ & Hs)].
  { rewrite Hs in H. discriminate. }
  destruct Hs as (cur & pick & drop & sent & rest & Hsent & Hfive & Hcase).
  destruct (TripSimulator.simulate self a b c env tr) as [[e|r'] t];
    [destruct e; discriminate|].
  injection H as <- <-.
  destruct Hcase as [(r'' & _ & ->)|(cause & Hc' & _)]; [|discriminate].
  exists a, b, c, cur, pick, drop. repeat (split; [assumption|]).
  cbv zeta. rewrite <- Htok, Hfive, app_nil_r. exact Hsent.
Qed.

Lemma success_sends_five_requests_witness :
  exists r tr',
    Views.simulate_trip (sample_request (JInt 0)) sample_env [] = (inr (Views.Ok r), tr') /\
    exists a b c cur pick drop,
      sample_request (JInt 0) !! "current_location" = Some a /\
      sample_request (JInt 0) !! "pickup_location" = Some b /\
      sample_request (JInt 0) !! "dropoff_location" = Some c /\
      let sent := default JNull (sample_request (JInt 0) !! "geoapify_token") in
      let token :=
        if truthy sent then sent else TripSimulator.config_token sample_env in
      tr' = [] ++ five_requests token a b c cur pick drop.
Proof.
  eexists _, _. split; [vm_compute; reflexivity|].
  eapply (success_sends_five_requests).
  vm_compute; reflexivity.
Defined.

(** ** The day of the log *)

Lemma replace_midnight_spec now :
  replace_midnight now = us_per_day * (now / us_per_day) /\
  now - replace_midnight now = now mod us_per_day /\
  0 <= now mod us_per_day < us_per_day.
Proof.
  unfold replace_midnight.
  pose proof (Z.div_mod now us_per_day) as H.
  assert (Hd : us_per_day <> 0) by discriminate.
  specialize (H Hd).
  pose proof (Z.mod_pos_bound now us_per_day eq_refl) as Hb.
  repeat split; lia.
Qed.

Lemma fmod_24_small x : (0 <= x < 24)%Q -> (Py.fmod x 24 == x)%Q.
Proof.
  intros Hx. unfold Py.fmod.
  assert (Hf : Qfloor (x / 24) = 0).
  { apply Qfloor_unique. pose proof (twentyfourth x) as Hdiv.
    change (inject_Z 0) with 0%Q. change (inject_Z (0 + 1)) with 1%Q.
    set (y := (x / 24)%Q) in *. clearbody y. split; lra. }
  rewrite Hf. change (inject_Z 0) with 0%Q. ring.
Qed.

(** The one daily log is dated the day the clock shows when the timeline
    is built, however long the trip, and its first entry reports the time
    of day of that reading, in hours rounded to two decimals. *)
Theorem daily_log_is_dated_at_the_clock tok u env0 tr0 self tr0' h d n env tr :
  TripSimulator.init tok u env0 tr0 = (inr self, tr0') ->
  exists events log first rest,
    TripSimulator.simulate_trip_timeline self h d n env tr
      = (inr (events, [log]), tr) /\
    DailyLog.date log = datetime_now env / us_per_day /\
    DailyLog.entries log = first :: rest /\
    rounded_to 2
      (inject_Z (datetime_now env mod us_per_day) / inject_Z us_per_hour)
      (LogEntry.elapsed_hours first).
Proof.
  intros Hinit.
  destruct (init_inv _ _ _ _ _ _ Hinit) as (_ & _ & Hp & Hd & _).
  destruct (replace_midnight_spec (datetime_now env)) as (Hday & Hoff & Hrange).
  assert (Hdate : date (replace_midnight (datetime_now env))
                  = datetime_now env / us_per_day).
  { unfold date. rewrite Hday, Z.mul_comm. now apply Z.div_mul. }
  assert (Hel : forall status hours description,
            LogEntry.elapsed_hours
              (TripSimulator.create_eld_log_entry self status hours description
                 (datetime_now env) (replace_midnight (datetime_now env)))
            = Py.round (inject_Z (datetime_now env mod us_per_day)
                        / inject_Z us_per_hour) 2).
  { intros. unfold TripSimulator.create_eld_log_entry.
    cbn [LogEntry.elapsed_hours]. apply round_comp. rewrite Hoff.
    set (m := datetime_now env mod us_per_day) in *.
    assert (Hm : (0 <= inject_Z m < inject_Z us_per_day)%Q)
      by (split; [change 0%Q with (inject_Z 0); rewrite <- Zle_Qle; lia
                 | rewrite <- Zlt_Qlt; lia]).
    change (inject_Z us_per_day) with 86400000000%Q in Hm.
    assert (E : (total_seconds m / 3600 == inject_Z m / inject_Z us_per_hour)%Q).
    { unfold total_seconds, us_per_hour.
      change (inject_Z 3600000000) with 3600000000%Q. field. }
    apply (Qeq_trans _ _ _ (fmod_comp _ _ 24 E)).
    apply fmod_24_small.
    assert (E' : (inject_Z m / inject_Z us_per_hour
                  == inject_Z m * (1 # 3600000000))%Q) by reflexivity.
    set (q := (inject_Z m / inject_Z us_per_hour)%Q) in *. clearbody q.
    split; lra. }
  destruct (Py.ltb 2 h) eqn:E.
  - eexists _, _, _, _.
    split; [apply (timeline_long self h d n env tr Hp Hd E)|].
    split; [exact Hdate|]. split; [reflexivity|].
    rewrite Hel. apply round2_rounded.
  - eexists _, _, _, _.
    split; [apply (timeline_short self h d n env tr Hp Hd E)|].
    split; [exact Hdate|]. split; [reflexivity|].
    rewrite Hel. apply round2_rounded.
Qed.

Lemma daily_log_is_dated_at_the_clock_witness :
  TripSimulator.init JNull 0 sample_env [] = (inr (sample_sim 0), []) /\
  exists events log first rest,
    TripSimulator.simulate_trip_timeline (sample_sim 0) 40 2200 2 sample_env []
      = (inr (events, [log]), []) /\
    DailyLog.date log = datetime_now sample_env / us_per_day /\
    DailyLog.entries log = first :: rest /\
    rounded_to 2
      (inject_Z (datetime_now sample_env mod us_per_day)
       / inject_Z us_per_hour)
      (LogEntry.elapsed_hours first).
Proof.
  split; [reflexivity|].
  apply (daily_log_is_dated_at_the_clock JNull 0 sample_env [] (sample_sim 0)
           [] 40 2200 2 sample_env []).
  reflexivity.
Defined.

(** ** What a result is assembled from *)


